(** * retryhttp: retry predicates and wait strategies for httpx failures

    A shallow embedding of [retryhttp/__init__.py].  The module layers four
    retry predicates, a header-driven wait strategy, a context-aware wait
    dispatcher and the [retry_http_errors] composer on top of [tenacity]
    (attempt loop, generic wait strategies) and [httpx] (exception classes,
    responses, headers).  Both libraries are external: the parts of them
    the module touches are modelled first, then the module itself, then
    its properties; the file ends with concrete runs in a world whose only
    mutable state is Python's random generator. *)

From Stdlib Require Import ZArith QArith Qminmax Bool List String Ascii Lia.
Import ListNotations.

#[local] Open Scope string_scope.
#[local] Open Scope Z_scope.

(** ** Python and httpx values the module inspects *)

(** Classes.  The named constructors are [BaseException], [Exception]
    and the httpx hierarchy; [OtherClass name bases] is any other class,
    given by its name and its direct bases, one or several (httpx's own
    classes have one base each; a user's class may derive from several of
    them). *)
#[warnings="-register-all"]
Inductive exc_class : Type :=
| BaseException
| Exception
| HTTPError
| RequestError
| TransportError
| TimeoutException
| ConnectTimeout
| ReadTimeout
| WriteTimeout
| PoolTimeout
| NetworkError
| ConnectError
| ReadError
| WriteError
| CloseError
| ProtocolError
| LocalProtocolError
| RemoteProtocolError
| ProxyError
| UnsupportedProtocol
| DecodingError
| TooManyRedirects
| HTTPStatusError
| OtherClass (name : string) (bases : list exc_class).

Definition exc_class_eq_dec : forall c d : exc_class, {c = d} + {c <> d}.
Proof.
  fix rec 1. intros c d. decide equality.
  - apply (list_eq_dec rec).
  - apply string_dec.
Defined.

Definition exc_class_eqb (c d : exc_class) : bool :=
  if exc_class_eq_dec c d then true else false.

(** The classes of the method resolution order of a class: the class
    itself and its ancestors through every base (the root [object] is
    left out).  [isinstance] asks for membership only, so the order of
    Python's linearisation is not reproduced and an ancestor reached
    through two bases is listed twice. *)
Fixpoint mro (c : exc_class) : list exc_class :=
  c ::
  match c with
  | BaseException => []
  | Exception => [BaseException]
  | HTTPError => [Exception; BaseException]
  | RequestError => [HTTPError; Exception; BaseException]
  | TransportError => [RequestError; HTTPError; Exception; BaseException]
  | TimeoutException | NetworkError | ProtocolError | ProxyError
  | UnsupportedProtocol =>
      [TransportError; RequestError; HTTPError; Exception; BaseException]
  | ConnectTimeout | ReadTimeout | WriteTimeout | PoolTimeout =>
      [TimeoutException; TransportError; RequestError; HTTPError; Exception;
       BaseException]
  | ConnectError | ReadError | WriteError | CloseError =>
      [NetworkError; TransportError; RequestError; HTTPError; Exception;
       BaseException]
  | LocalProtocolError | RemoteProtocolError =>
      [ProtocolError; TransportError; RequestError; HTTPError; Exception;
       BaseException]
  | DecodingError | TooManyRedirects =>
      [RequestError; HTTPError; Exception; BaseException]
  | HTTPStatusError => [HTTPError; Exception; BaseException]
  | OtherClass _ bases => flat_map mro bases
  end.

Definition issubclass (c d : exc_class) : bool :=
  existsb (exc_class_eqb d) (mro c).

(** The class is [BaseException], [Exception] or one of httpx's own. *)
Definition declared_class (c : exc_class) : bool :=
  match c with
  | OtherClass _ _ => false
  | _ => true
  end.

(** The class is built by single inheritance: it is a declared class, or
    it has one base, which is built by single inheritance. *)
Fixpoint single_inheritance (c : exc_class) : bool :=
  match c with
  | OtherClass _ bases =>
      match bases with
      | [base] => single_inheritance base
      | _ => false
      end
  | _ => true
  end.

(** The second argument of [isinstance]: one class or a tuple of classes. *)
Inductive classinfo : Type :=
| Class (c : exc_class)
| Classes (cs : list exc_class).

(** [httpx.Headers]: the (name, value) pairs in arrival order.  Lookup
    compares names case-insensitively and joins the values of a repeated
    header with ", "; [Headers_getitem] is [None] where Python raises
    [KeyError]. *)
Definition Headers : Type := list (string * string).

Definition ascii_lower (a : ascii) : ascii :=
  let n := nat_of_ascii a in
  if ((65 <=? n) && (n <=? 90))%nat then ascii_of_nat (n + 32) else a.

Definition lower (s : string) : string :=
  string_of_list_ascii (map ascii_lower (list_ascii_of_string s)).

Definition Headers_getitem (h : Headers) (key : string) : option string :=
  match
    map snd (filter (fun kv => String.eqb (lower (fst kv)) (lower key)) h)
  with
  | [] => None
  | items => Some (String.concat ", " items)
  end.

(** [httpx.Response], as far as the module reads it. *)
Record Response : Type := mkResponse {
  status_code : Z;
  headers : Headers
}.

(** An exception instance: its class and, for [httpx.HTTPStatusError]
    instances, the response it was raised for.  The module reads
    [response] only behind an [isinstance(exc, httpx.HTTPStatusError)]
    test; for every other exception the field is never looked at. *)
Record exception : Type := mkException {
  exc_type : exc_class;
  response : Response
}.

(** [isinstance(exc, classinfo)] where [exc] may be [None]. *)
Definition isinstance (exc : option exception) (ci : classinfo) : bool :=
  match exc with
  | None => false
  | Some e =>
      match ci with
      | Class c => issubclass (exc_type e) c
      | Classes cs => existsb (issubclass (exc_type e)) cs
      end
  end.

(** ** Python floats and the [float()] constructor *)

(** A Python float.  A finite value is carried as the rational it
    denotes, in lowest terms; negative zero is not kept apart from zero
    (Python compares them equal). *)
Inductive pyfloat : Type :=
| Finite (q : Q)
| Infinity (negative : bool)
| NaN.

(** [0 <= f] as Python evaluates it. *)
Definition float_nonneg (f : pyfloat) : bool :=
  match f with
  | Finite q => Qle_bool 0 q
  | Infinity negative => negb negative
  | NaN => false
  end.

Definition is_digit (a : ascii) : bool :=
  let n := nat_of_ascii a in ((48 <=? n) && (n <=? 57))%nat.

(** The characters [float()] drops around a literal: the ASCII
    whitespace and, of the characters from 128 to 255, the two Unicode
    spaces U+0085 and U+00A0. *)
Definition is_space (a : ascii) : bool :=
  let n := nat_of_ascii a in
  ((n =? 32) || ((9 <=? n) && (n <=? 13)) || (n =? 133) || (n =? 160))%nat.

Definition digit_value (a : ascii) : Z := Z.of_nat (nat_of_ascii a - 48).

Definition digits_value (ds : list ascii) : Z :=
  fold_left (fun acc d => 10 * acc + digit_value d) ds 0.

Fixpoint lstrip (s : list ascii) : list ascii :=
  match s with
  | c :: s' => if is_space c then lstrip s' else s
  | [] => []
  end.

Definition strip (s : list ascii) : list ascii :=
  rev (lstrip (rev (lstrip s))).

(** [(["_"] digit)*]: the digits read and the unread rest. *)
Fixpoint digits_tail (s : list ascii) : list ascii * list ascii :=
  match s with
  | c :: s' =>
      if is_digit c then
        let (ds, r) := digits_tail s' in (c :: ds, r)
      else if Ascii.eqb c "_" then
        match s' with
        | d :: s'' =>
            if is_digit d then
              let (ds, r) := digits_tail s'' in (d :: ds, r)
            else ([], s)
        | [] => ([], s)
        end
      else ([], s)
  | [] => ([], [])
  end.

(** [digitpart ::= digit (["_"] digit)*] *)
Definition digitpart (s : list ascii) : option (list ascii * list ascii) :=
  match s with
  | c :: s' =>
      if is_digit c then
        let (ds, r) := digits_tail s' in Some (c :: ds, r)
      else None
  | [] => None
  end.

(** [sign ::= "+" | "-"], optional: whether it was "-" and the rest. *)
Definition opt_sign (s : list ascii) : bool * list ascii :=
  match s with
  | c :: s' =>
      if Ascii.eqb c "-" then (true, s')
      else if Ascii.eqb c "+" then (false, s')
      else (false, s)
  | [] => (false, [])
  end.

(** [number ::= [digitpart] "." digitpart | digitpart ["."]]: the integer
    digits, the fraction digits and the rest. *)
Definition number (s : list ascii)
  : option (list ascii * list ascii * list ascii) :=
  match digitpart s with
  | Some (ip, r) =>
      match r with
      | c :: r' =>
          if Ascii.eqb c "." then
            match digitpart r' with
            | Some (fp, r'') => Some (ip, fp, r'')
            | None => Some (ip, [], r')
            end
          else Some (ip, [], r)
      | [] => Some (ip, [], [])
      end
  | None =>
      match s with
      | c :: r' =>
          if Ascii.eqb c "." then
            match digitpart r' with
            | Some (fp, r'') => Some ([], fp, r'')
            | None => None
            end
          else None
      | [] => None
      end
  end.

(** [exponent ::= ("e" | "E") [sign] digitpart], up to the end of input. *)
Definition exponent (s : list ascii) : option Z :=
  match s with
  | [] => Some 0
  | c :: r =>
      if Ascii.eqb c "e" || Ascii.eqb c "E" then
        let (neg, r1) := opt_sign r in
        match digitpart r1 with
        | Some (ds, []) =>
            Some (if neg then - digits_value ds else digits_value ds)
        | _ => None
        end
      else None
  end.

(** The rational [m * 10^e], in lowest terms. *)
Definition decimal (m e : Z) : Q :=
  if 0 <=? e then Qred (m * 10 ^ e # 1)
  else Qred (m # Z.to_pos (10 ^ (- e))).

(** [num / den] rounded to the nearest integer, ties to even
    ([0 <= num], [0 < den]). *)
Definition round_half_even (num den : Z) : Z :=
  let q := num / den in
  match 2 * (num mod den) ?= den with
  | Lt => q
  | Gt => q + 1
  | Eq => if Z.even q then q else q + 1
  end.

(** The binary64 value nearest to the positive rational [n / d], ties to
    even, with gradual underflow; [None] when the value is beyond the
    largest finite one, where [float()] gives an infinity. *)
Definition binary64_of_pos (n d : positive) : option Q :=
  let e0 := Z.log2 (Zpos n) - Z.log2 (Zpos d) in
  let below :=
    if 0 <=? e0 then Zpos n <? Zpos d * 2 ^ e0
    else Zpos n * 2 ^ (- e0) <? Zpos d in
  let e := if below then e0 - 1 else e0 in
  let t := Z.max e (-1022) - 52 in
  let m :=
    if 0 <=? t then round_half_even (Zpos n) (Zpos d * 2 ^ t)
    else round_half_even (Zpos n * 2 ^ (- t)) (Zpos d) in
  if 2 ^ 1024 <=? m * 2 ^ (Z.max t 0) then None
  else if 0 <=? t then Some (Qred (m * 2 ^ t # 1))
  else Some (Qred (m # Z.to_pos (2 ^ (- t)))).

Definition binary64_of_Q (q : Q) : option Q :=
  match Qnum q with
  | Zpos n => binary64_of_pos n (Qden q)
  | _ => Some 0%Q
  end.

(** [floatnumber ::= number [exponent]]: the decimal value written. *)
Definition floatnumber (s : list ascii) : option Q :=
  match number s with
  | Some (ip, fp, r) =>
      match exponent r with
      | Some e =>
          Some (decimal (digits_value (ip ++ fp)%list)
                        (e - Z.of_nat (List.length fp)))
      | None => None
      end
  | None => None
  end.

(** [float(s)] for a string [s] whose characters are the code points
    below 256, one character each: [None] when Python raises
    [ValueError].  Surrounding whitespace is dropped, then
    [floatvalue ::= [sign] (floatnumber | "inf" | "infinity" | "nan")] is
    read, letters in any case, and the decimal value is rounded to
    binary64.  Below 256 the decimal digits are the ASCII ones; the
    digits and spaces Unicode has from 256 on are outside what a string
    holds here. *)
Definition float_of_str (s : string) : option pyfloat :=
  let (neg, body) := opt_sign (strip (list_ascii_of_string s)) in
  let word := string_of_list_ascii (map ascii_lower body) in
  if String.eqb word "inf" || String.eqb word "infinity" then
    Some (Infinity neg)
  else if String.eqb word "nan" then Some NaN
  else
    match floatnumber body with
    | Some q =>
        match binary64_of_Q q with
        | Some r => Some (Finite (if neg then Qred (- r) else r))
        | None => Some (Infinity neg)
        end
    | None => None
    end.

Example float_of_str_5 : float_of_str "5" = Some (Finite 5).
Proof. reflexivity. Qed.

Example float_of_str_spaces : float_of_str " 5.0 " = Some (Finite 5).
Proof. reflexivity. Qed.

Example float_of_str_text : float_of_str "not-a-number" = None.
Proof. reflexivity. Qed.

Example float_of_str_neg : float_of_str "-5" = Some (Finite (-5)).
Proof. reflexivity. Qed.

Example float_of_str_exp :
  float_of_str "2_5.0e-2" = Some (Finite (1 # 4)).
Proof. reflexivity. Qed.

Example float_of_str_inf : float_of_str "-Infinity" = Some (Infinity true).
Proof. reflexivity. Qed.

Example float_of_str_rounds :
  float_of_str "0.1"
  = Some (Finite (3602879701896397 # 36028797018963968))
  /\ float_of_str "9007199254740993" = Some (Finite 9007199254740992)
  /\ float_of_str "1e-400" = Some (Finite 0).
Proof. repeat split; vm_compute; reflexivity. Qed.

Example float_of_str_overflows :
  float_of_str "1e400" = Some (Infinity false)
  /\ float_of_str "-1e400" = Some (Infinity true).
Proof. split; vm_compute; reflexivity. Qed.

Example float_of_str_latin1_space :
  float_of_str (String (ascii_of_nat 160) "5") = Some (Finite 5).
Proof. reflexivity. Qed.

Example float_of_str_rejects :
  float_of_str "1__0" = None /\ float_of_str "1_" = None
  /\ float_of_str "_1" = None /\ float_of_str "1._5" = None
  /\ float_of_str "." = None /\ float_of_str "" = None
  /\ float_of_str "5e" = None /\ float_of_str "0x10" = None.
Proof. repeat split; reflexivity. Qed.

Example float_of_str_date :
  float_of_str "Wed, 21 Oct 2015 07:28:00 GMT" = None.
Proof. reflexivity. Qed.

(** What [Headers.get(key, default)] hands to [float()] in this module: a
    header value (a string) or the default (a float). *)
Inductive pyobj : Type :=
| PyStr (s : string)
| PyFloat (f : pyfloat).

Definition Headers_get (h : Headers) (key : string) (default : pyobj)
  : pyobj :=
  match Headers_getitem h key with
  | Some v => PyStr v
  | None => default
  end.

Definition ValueError : exc_class := OtherClass "ValueError" [Exception].

(** ** tenacity: retry state, strategies and the effects of a call *)

(** A completed [tenacity.Future]: the attempt returned or raised. *)
Inductive Future : Type :=
| Returned
| Raised (e : exception).

Definition Future_exception (f : Future) : option exception :=
  match f with
  | Returned => None
  | Raised e => Some e
  end.

(** [tenacity.RetryCallState], as far as strategies read it.  A [Future]
    object is always truthy, so [if retry_state.outcome:] tests for
    [None]. *)
Record RetryCallState : Type := mkRetryCallState {
  outcome : option Future;
  attempt_number : Z
}.

(** The result of a call: a value, or the class of the exception that
    escaped. *)
Inductive result (A : Type) : Type :=
| Ret (a : A)
| Raise (e : exc_class).
Arguments Ret {A} a.
Arguments Raise {A} e.

Section Retryhttp.

(** Whatever mutable state a wait strategy may read or change when it is
    called (tenacity's jittered strategies draw from the process-wide
    random generator). *)
Context {World : Type}.

Definition M (A : Type) : Type := World -> result A * World.

Definition ret {A : Type} (a : A) : M A := fun w => (Ret a, w).

Definition raise {A : Type} (e : exc_class) : M A := fun w => (Raise e, w).

Definition bind {A B : Type} (m : M A) (k : A -> M B) : M B :=
  fun w =>
    match m w with
    | (Ret a, w') => k a w'
    | (Raise e, w') => (Raise e, w')
    end.

#[local] Notation "x <- m ;; k" := (bind m (fun x => k))
  (at level 61, m at next level, right associativity).

Definition retry_base : Type := RetryCallState -> bool.
Definition wait_base : Type := RetryCallState -> M pyfloat.
Definition stop_base : Type := RetryCallState -> bool.

(** [tenacity.retry_any]: true when one of the given strategies is. *)
Definition retry_any (retries : list retry_base) : retry_base :=
  fun retry_state => existsb (fun r => r retry_state) retries.

(** [tenacity.stop_after_attempt(max_attempt_number)] *)
Definition stop_after_attempt (max_attempt_number : Z) : stop_base :=
  fun retry_state => max_attempt_number <=? attempt_number retry_state.

(** [tenacity.wait_exponential_jitter(initial, max)] and
    [tenacity.wait_exponential(multiplier, max)], which the module only
    names as default strategies; [None] stands for an argument left to
    tenacity's own default. *)
Variable wait_exponential_jitter : option Q -> option Q -> wait_base.
Variable wait_exponential : option Q -> option Q -> wait_base.

(** [float(x)] for a string or a float. *)
Definition float (x : pyobj) : M pyfloat :=
  match x with
  | PyFloat f => ret f
  | PyStr s =>
      match float_of_str s with
      | Some f => ret f
      | None => raise ValueError
      end
  end.

(** An optional argument: the value passed, or the default. *)
Definition or_default {A : Type} (arg : option A) (default : A) : A :=
  match arg with
  | Some a => a
  | None => default
  end.

(** ** The module *)

Definition MAX_ATTEMPTS : Z := 3.

(** A [Union[Sequence[int], int]] argument. *)
Inductive status_codes_arg : Type :=
| Code (c : Z)
| CodeSeq (cs : list Z).

Definition TOO_MANY_REQUESTS : Z := 429.

Definition RETRY_SERVER_ERROR_CODES : status_codes_arg :=
  CodeSeq [500; 502; 504; 503].

Definition RETRY_NETWORK_ERRORS : classinfo :=
  Classes [ConnectError; ReadError; WriteError].

Definition RETRY_NETWORK_TIMEOUTS : classinfo :=
  Classes [TimeoutException].

Definition _is_rate_limited (exc : option exception) : bool :=
  if isinstance exc (Class HTTPStatusError) then
    match exc with
    | Some e => status_code (response e) =? TOO_MANY_REQUESTS
    | None => false
    end
  else false.

(** The default of [_is_server_error]'s own [status_codes] parameter,
    [tuple(range(500, 600))]; every caller in the module passes the
    argument. *)
Definition _is_server_error_default : status_codes_arg :=
  CodeSeq (map Z.of_nat (seq 500 100)).

Definition _is_server_error (exc : option exception)
    (status_codes : status_codes_arg) : bool :=
  let status_codes :=
    match status_codes with
    | Code c => [c]
    | CodeSeq cs => cs
    end in
  if isinstance exc (Class HTTPStatusError) then
    match exc with
    | Some e => existsb (Z.eqb (status_code (response e))) status_codes
    | None => false
    end
  else false.

Definition retry_if_rate_limited : retry_base :=
  fun retry_state =>
    match outcome retry_state with
    | Some fut => _is_rate_limited (Future_exception fut)
    | None => false
    end.

(** In [__init__], [isinstance(errors, BaseException)] is false for a
    class and for a tuple of classes, so [errors] is stored as given. *)
Definition retry_if_network_error (errors : option classinfo) : retry_base :=
  let errors := or_default errors RETRY_NETWORK_ERRORS in
  fun retry_state =>
    match outcome retry_state with
    | Some fut => isinstance (Future_exception fut) errors
    | None => false
    end.

Definition retry_if_network_timeout (timeouts : option classinfo)
  : retry_base :=
  let timeouts := or_default timeouts RETRY_NETWORK_TIMEOUTS in
  fun retry_state =>
    match outcome retry_state with
    | Some fut => isinstance (Future_exception fut) timeouts
    | None => false
    end.

Definition retry_if_server_error
    (server_error_codes : option status_codes_arg) : retry_base :=
  let server_error_codes :=
    or_default server_error_codes RETRY_SERVER_ERROR_CODES in
  fun retry_state =>
    match outcome retry_state with
    | Some fut =>
        _is_server_error (Future_exception fut) server_error_codes
    | None => false
    end.

(** [fallback(retry_state)] is the default argument of [headers.get], so
    it is evaluated before the header is looked up, also when the header
    is there. *)
Definition wait_from_header (header : string) (fallback : option wait_base)
  : wait_base :=
  let fallback :=
    or_default fallback (wait_exponential_jitter (Some 1%Q) (Some 15%Q)) in
  fun retry_state =>
    match outcome retry_state with
    | Some fut =>
        let exc := Future_exception fut in
        if isinstance exc (Class HTTPStatusError) then
          match exc with
          | Some e =>
              default <- fallback retry_state ;;
              float (Headers_get (headers (response e)) header
                                 (PyFloat default))
          | None => fallback retry_state
          end
        else fallback retry_state
    | None => fallback retry_state
    end.

Definition wait_retry_after_header (header : option string)
    (fallback : option wait_base) : wait_base :=
  let header := or_default header "Retry-After" in
  let fallback :=
    or_default fallback (wait_exponential_jitter (Some 1%Q) (Some 15%Q)) in
  wait_from_header header (Some fallback).

(** The dispatcher.  A call that falls through every test, or has no
    outcome, reaches the final [return 0]. *)
Definition wait_context_aware
    (wait_server_errors wait_network_errors wait_network_timeouts
     wait_rate_limited : option wait_base)
    (server_error_codes : option status_codes_arg)
    (network_errors network_timeouts : option classinfo) : wait_base :=
  let wait_server_errors :=
    or_default wait_server_errors (wait_exponential_jitter None None) in
  let wait_network_errors :=
    or_default wait_network_errors (wait_exponential None None) in
  let wait_network_timeouts :=
    or_default wait_network_timeouts (wait_exponential_jitter None None) in
  let wait_rate_limited :=
    or_default wait_rate_limited (wait_retry_after_header None None) in
  let server_error_codes :=
    or_default server_error_codes RETRY_SERVER_ERROR_CODES in
  let network_errors := or_default network_errors RETRY_NETWORK_ERRORS in
  let network_timeouts :=
    or_default network_timeouts RETRY_NETWORK_TIMEOUTS in
  fun retry_state =>
    match outcome retry_state with
    | Some fut =>
        let exc := Future_exception fut in
        if _is_server_error exc server_error_codes then
          wait_server_errors retry_state
        else if isinstance exc network_errors then
          wait_network_errors retry_state
        else if isinstance exc network_timeouts then
          wait_network_timeouts retry_state
        else if _is_rate_limited exc then
          wait_rate_limited retry_state
        else ret (Finite 0)
    | None => ret (Finite 0)
    end.

(** The arguments of [retry_http_errors]; [None] is an argument left
    out.  [dkw_retry], [dkw_wait] and [dkw_stop] are the entries
    ["retry"], ["wait"] and ["stop"] of the extra keyword arguments. *)
Record retry_http_errors_args : Type := mkArgs {
  max_attempt_number : option Z;
  retry_server_errors : option bool;
  retry_network_errors : option bool;
  retry_network_timeouts : option bool;
  retry_rate_limited : option bool;
  wait_server_errors : option wait_base;
  wait_network_errors : option wait_base;
  wait_network_timeouts : option wait_base;
  wait_rate_limited : option wait_base;
  server_error_codes : option status_codes_arg;
  network_errors : option classinfo;
  network_timeouts : option classinfo;
  dkw_retry : option retry_base;
  dkw_wait : option wait_base;
  dkw_stop : option stop_base
}.

(** The three strategies [retry_http_errors] hands to [tenacity.retry]. *)
Record Policy : Type := mkPolicy {
  retry : retry_base;
  wait : wait_base;
  stop : stop_base
}.

(** The list [retry_strategies] after the four conditional appends. *)
Definition retry_strategies (a : retry_http_errors_args)
  : list retry_base :=
  let server_error_codes :=
    or_default (server_error_codes a) RETRY_SERVER_ERROR_CODES in
  let network_errors :=
    or_default (network_errors a) RETRY_NETWORK_ERRORS in
  let network_timeouts :=
    or_default (network_timeouts a) RETRY_NETWORK_TIMEOUTS in
  (if or_default (retry_server_errors a) true
   then [retry_if_server_error (Some server_error_codes)] else [])
  ++ (if or_default (retry_network_errors a) true
      then [retry_if_network_error (Some network_errors)] else [])
  ++ (if or_default (retry_network_timeouts a) true
      then [retry_if_network_timeout (Some network_timeouts)] else [])
  ++ (if or_default (retry_rate_limited a) true
      then [retry_if_rate_limited] else []).

(** The dispatcher is built from the four wait strategies only: its code
    and type sets stay at their defaults. *)
Definition retry_http_errors (a : retry_http_errors_args) : Policy :=
  let retry := or_default (dkw_retry a) (retry_any (retry_strategies a)) in
  let wait :=
    or_default (dkw_wait a)
      (wait_context_aware
         (Some (or_default (wait_server_errors a)
                  (wait_exponential_jitter (Some 1%Q) (Some 15%Q))))
         (Some (or_default (wait_network_errors a)
                  (wait_exponential (Some 1%Q) (Some 15%Q))))
         (Some (or_default (wait_network_timeouts a)
                  (wait_exponential_jitter (Some 1%Q) (Some 15%Q))))
         (Some (or_default (wait_rate_limited a)
                  (wait_retry_after_header None None)))
         None None None) in
  let stop :=
    or_default (dkw_stop a)
      (stop_after_attempt (or_default (max_attempt_number a) 3)) in
  mkPolicy retry wait stop.

(** ** Vocabulary of the properties *)

(** The attempt of [retry_state] failed with an [httpx.HTTPStatusError]
    (or an instance of a subclass) whose response has status [code]. *)
Definition status_failure (retry_state : RetryCallState) (code : Z) : Prop :=
  exists e,
    outcome retry_state = Some (Raised e)
    /\ issubclass (exc_type e) HTTPStatusError = true
    /\ status_code (response e) = code.

(** The attempt of [retry_state], if it failed, failed with an exception
    whose class is built by single inheritance. *)
Definition singly_derived (retry_state : RetryCallState) : Prop :=
  forall e, outcome retry_state = Some (Raised e) ->
            single_inheritance (exc_type e) = true.

(** Every value the strategy returns for [retry_state] is non-negative. *)
Definition nonneg_at (s : wait_base) (retry_state : RetryCallState) : Prop :=
  forall w v w', s retry_state w = (Ret v, w') -> float_nonneg v = true.

(** The result of the strategy for [retry_state] is the same in every
    state of the world. *)
Definition deterministic_at (s : wait_base) (retry_state : RetryCallState)
  : Prop :=
  forall w1 w2, fst (s retry_state w1) = fst (s retry_state w2).

(** The fallback in force for [wait_from_header]: the one passed, or the
    default jittered backoff. *)
Definition fallback_of (fallback : option wait_base) : wait_base :=
  or_default fallback (wait_exponential_jitter (Some 1%Q) (Some 15%Q)).

(** The four strategies in force for [wait_context_aware]. *)
Definition server_wait_of (s : option wait_base) : wait_base :=
  or_default s (wait_exponential_jitter None None).
Definition network_wait_of (s : option wait_base) : wait_base :=
  or_default s (wait_exponential None None).
Definition timeout_wait_of (s : option wait_base) : wait_base :=
  or_default s (wait_exponential_jitter None None).
Definition rate_wait_of (s : option wait_base) : wait_base :=
  or_default s (wait_retry_after_header None None).

(** ** Class hierarchy lemmas *)

Lemma exc_class_eqb_refl (c : exc_class) : exc_class_eqb c c = true.
Proof. unfold exc_class_eqb. destruct (exc_class_eq_dec c c); congruence. Qed.

Lemma exc_class_eqb_eq (c d : exc_class) : exc_class_eqb c d = true <-> c = d.
Proof.
  unfold exc_class_eqb. destruct (exc_class_eq_dec c d); split;
    congruence.
Qed.

(** Induction over classes, with the property at hand for every base. *)
Lemma exc_class_nested_ind (P : exc_class -> Prop) :
  (forall c, declared_class c = true -> P c) ->
  (forall name bases, Forall P bases -> P (OtherClass name bases)) ->
  forall c, P c.
Proof.
  intros Hnamed Hother. fix rec 1. intros c.
  destruct c; try (apply Hnamed; reflexivity).
  apply Hother. induction bases as [ | b bs IH]; constructor;
    [apply rec | exact IH].
Qed.

Lemma existsb_flat_map {A B : Type} (f : B -> bool) (g : A -> list B)
    (l : list A) :
  existsb f (flat_map g l) = existsb (fun x => existsb f (g x)) l.
Proof.
  induction l as [ | x l IH]; [reflexivity | ].
  cbn [flat_map existsb]. rewrite existsb_app, IH. reflexivity.
Qed.

Lemma issubclass_OtherClass (name : string) (bases : list exc_class)
    (d : exc_class) :
  issubclass (OtherClass name bases) d
  = exc_class_eqb d (OtherClass name bases)
    || existsb (fun base => issubclass base d) bases.
Proof.
  unfold issubclass. cbn [mro existsb]. rewrite existsb_flat_map.
  reflexivity.
Qed.

(** Two classes of the httpx hierarchy neither of which derives from the
    other have no common subclass among the classes built by single
    inheritance: checked here for the pairs the default configuration
    sets apart.  A class with several bases can derive from both. *)
Ltac no_common_subclass c :=
  induction c as [c Hdecl | name bases IH] using exc_class_nested_ind;
  [ destruct c; try discriminate Hdecl; vm_compute; intros; congruence
  | intros Hsingle;
    destruct bases as [ | base [ | base' bases]];
    try discriminate Hsingle;
    cbn [single_inheritance] in Hsingle;
    apply Forall_inv in IH;
    rewrite !issubclass_OtherClass; cbn [existsb]; rewrite !orb_false_r;
    intros H; apply orb_true_iff in H; destruct H as [H | H];
    [ apply exc_class_eqb_eq in H; discriminate H
    | rewrite (IH Hsingle H), orb_false_r;
      match goal with
      | |- exc_class_eqb ?d ?o = false =>
          destruct (exc_class_eqb d o) eqn:E;
          [ apply exc_class_eqb_eq in E; discriminate E | reflexivity ]
      end ] ].

Lemma status_not_ConnectError (c : exc_class) :
  single_inheritance c = true ->
  issubclass c HTTPStatusError = true -> issubclass c ConnectError = false.
Proof. no_common_subclass c. Qed.

Lemma status_not_ReadError (c : exc_class) :
  single_inheritance c = true ->
  issubclass c HTTPStatusError = true -> issubclass c ReadError = false.
Proof. no_common_subclass c. Qed.

Lemma status_not_WriteError (c : exc_class) :
  single_inheritance c = true ->
  issubclass c HTTPStatusError = true -> issubclass c WriteError = false.
Proof. no_common_subclass c. Qed.

Lemma status_not_TimeoutException (c : exc_class) :
  single_inheritance c = true ->
  issubclass c HTTPStatusError = true ->
  issubclass c TimeoutException = false.
Proof. no_common_subclass c. Qed.

Lemma ConnectError_not_TimeoutException (c : exc_class) :
  single_inheritance c = true ->
  issubclass c ConnectError = true -> issubclass c TimeoutException = false.
Proof. no_common_subclass c. Qed.

Lemma ReadError_not_TimeoutException (c : exc_class) :
  single_inheritance c = true ->
  issubclass c ReadError = true -> issubclass c TimeoutException = false.
Proof. no_common_subclass c. Qed.

Lemma WriteError_not_TimeoutException (c : exc_class) :
  single_inheritance c = true ->
  issubclass c WriteError = true -> issubclass c TimeoutException = false.
Proof. no_common_subclass c. Qed.

(** ** The classifiers *)

Lemma _is_rate_limited_true (exc : option exception) :
  _is_rate_limited exc = true <->
  exists e, exc = Some e
            /\ issubclass (exc_type e) HTTPStatusError = true
            /\ status_code (response e) = 429.
Proof.
  unfold _is_rate_limited, isinstance, TOO_MANY_REQUESTS.
  destruct exc as [e | ].
  - destruct (issubclass (exc_type e) HTTPStatusError) eqn:Hsub.
    + rewrite Z.eqb_eq. split.
      * intros Hc. exists e. auto.
      * intros (e' & [= <-] & _ & Hc). exact Hc.
    + split; [discriminate | ].
      intros (e' & [= <-] & Hs & _). congruence.
  - split; [discriminate | ]. intros (e' & He & _). discriminate He.
Qed.

Lemma _is_server_error_true (exc : option exception) (cs : list Z) :
  _is_server_error exc (CodeSeq cs) = true <->
  exists e, exc = Some e
            /\ issubclass (exc_type e) HTTPStatusError = true
            /\ In (status_code (response e)) cs.
Proof.
  unfold _is_server_error, isinstance.
  destruct exc as [e | ].
  - destruct (issubclass (exc_type e) HTTPStatusError) eqn:Hsub.
    + rewrite existsb_exists. split.
      * intros (c & Hin & Hc). apply Z.eqb_eq in Hc. exists e.
        rewrite Hc. auto.
      * intros (e' & [= <-] & _ & Hin).
        exists (status_code (response e)). split; [exact Hin | ].
        apply Z.eqb_refl.
    + split; [discriminate | ].
      intros (e' & [= <-] & Hs & _). congruence.
  - split; [discriminate | ]. intros (e' & He & _). discriminate He.
Qed.

Lemma retry_if_server_error_true (cs : list Z)
    (retry_state : RetryCallState) :
  retry_if_server_error (Some (CodeSeq cs)) retry_state = true <->
  exists code, status_failure retry_state code /\ In code cs.
Proof.
  unfold retry_if_server_error, status_failure, or_default.
  destruct (outcome retry_state) as [fut | ].
  - rewrite _is_server_error_true. split.
    + intros (e & Hexc & Hsub & Hin).
      exists (status_code (response e)). split; [ | exact Hin].
      exists e. destruct fut; simpl in Hexc; [discriminate | ].
      injection Hexc as ->. auto.
    + intros (code & (e & [= ->] & Hsub & Hcode) & Hin).
      exists e. subst code. auto.
  - split; [discriminate | ].
    intros (code & (e & He & _) & _). discriminate He.
Qed.

Lemma retry_if_rate_limited_true (retry_state : RetryCallState) :
  retry_if_rate_limited retry_state = true <->
  status_failure retry_state 429.
Proof.
  unfold retry_if_rate_limited, status_failure.
  destruct (outcome retry_state) as [fut | ].
  - rewrite _is_rate_limited_true. split.
    + intros (e & Hexc & Hsub & Hc). exists e.
      destruct fut; simpl in Hexc; [discriminate | ].
      injection Hexc as ->. auto.
    + intros (e & [= ->] & Hsub & Hc). exists e. auto.
  - split; [discriminate | ]. intros (e & He & _). discriminate He.
Qed.

(** C5: the server-error classifier holds exactly for a status-carrying
    failure whose status code is in the configured codes; left out, the
    codes are 500, 502, 503 and 504; a code outside the configured ones
    is rejected whatever its range; a single code behaves as the
    one-element sequence of it. *)
Theorem server_error_classifier :
  (forall cs retry_state,
      retry_if_server_error (Some (CodeSeq cs)) retry_state = true <->
      exists code, status_failure retry_state code /\ In code cs)
  /\ (forall retry_state,
         retry_if_server_error None retry_state = true <->
         exists code,
           status_failure retry_state code
           /\ (code = 500 \/ code = 502 \/ code = 503 \/ code = 504))
  /\ (forall cs retry_state code,
         status_failure retry_state code -> ~ In code cs ->
         retry_if_server_error (Some (CodeSeq cs)) retry_state = false)
  /\ (forall c retry_state,
         retry_if_server_error (Some (Code c)) retry_state
         = retry_if_server_error (Some (CodeSeq [c])) retry_state).
Proof.
  split; [ | split; [ | split]].
  - exact retry_if_server_error_true.
  - intros retry_state.
    change (retry_if_server_error None retry_state)
      with (retry_if_server_error (Some (CodeSeq [500; 502; 504; 503]))
              retry_state).
    rewrite retry_if_server_error_true.
    split; intros (code & Hf & Hin); exists code; (split; [exact Hf | ]);
      simpl in *; intuition congruence.
  - intros cs retry_state code Hf Hnot.
    destruct (retry_if_server_error (Some (CodeSeq cs)) retry_state) eqn:E;
      [ | reflexivity].
    apply retry_if_server_error_true in E.
    destruct E as (code' & (e' & He' & _ & Hc') & Hin).
    destruct Hf as (e & He & _ & Hc).
    rewrite He in He'. injection He' as <-. subst. contradiction.
  - intros c retry_state. unfold retry_if_server_error, or_default.
    destruct (outcome retry_state); reflexivity.
Qed.

(** C6, amended: the rate-limited classifier holds exactly for a
    status-carrying failure with status 429; for such a failure the
    server-error classifier in its default configuration is false, and
    so are the default network-error and network-timeout classifiers
    when the class of the failure is built by single inheritance. *)
Theorem rate_limited_classifier :
  (forall retry_state,
      retry_if_rate_limited retry_state = true <->
      status_failure retry_state 429)
  /\ (forall retry_state,
         status_failure retry_state 429 ->
         retry_if_server_error None retry_state = false)
  /\ (forall retry_state e,
         outcome retry_state = Some (Raised e) ->
         issubclass (exc_type e) HTTPStatusError = true ->
         status_code (response e) = 429 ->
         single_inheritance (exc_type e) = true ->
         retry_if_network_error None retry_state = false
         /\ retry_if_network_timeout None retry_state = false).
Proof.
  split; [exact retry_if_rate_limited_true | split].
  - intros retry_state (e & Hout & Hsub & Hcode).
    unfold retry_if_server_error, or_default.
    rewrite Hout. cbn [Future_exception].
    unfold _is_server_error, isinstance, RETRY_SERVER_ERROR_CODES.
    rewrite Hsub, Hcode. reflexivity.
  - intros retry_state e Hout Hsub _ Hsingle.
    unfold retry_if_network_error, retry_if_network_timeout, or_default.
    rewrite Hout. cbn [Future_exception].
    unfold isinstance, RETRY_NETWORK_ERRORS, RETRY_NETWORK_TIMEOUTS.
    cbn [existsb].
    rewrite (status_not_ConnectError _ Hsingle Hsub),
      (status_not_ReadError _ Hsingle Hsub),
      (status_not_WriteError _ Hsingle Hsub),
      (status_not_TimeoutException _ Hsingle Hsub).
    split; reflexivity.
Qed.

(** Under the default code and type sets a failure whose class is built
    by single inheritance belongs to one category at most. *)
Lemma default_categories_exclusive (retry_state : RetryCallState) :
  singly_derived retry_state ->
  let s := retry_if_server_error None retry_state in
  let n := retry_if_network_error None retry_state in
  let t := retry_if_network_timeout None retry_state in
  let r := retry_if_rate_limited retry_state in
  s && n = false /\ s && t = false /\ s && r = false
  /\ n && t = false /\ n && r = false /\ t && r = false.
Proof.
  intros Hsingle.
  unfold retry_if_server_error, retry_if_network_error,
    retry_if_network_timeout, retry_if_rate_limited, or_default.
  destruct (outcome retry_state) as [[ | e] | ] eqn:Hout;
    try (repeat split; reflexivity).
  specialize (Hsingle e Hout).
  cbn [Future_exception].
  unfold _is_server_error, _is_rate_limited, isinstance,
    RETRY_SERVER_ERROR_CODES, RETRY_NETWORK_ERRORS, RETRY_NETWORK_TIMEOUTS,
    TOO_MANY_REQUESTS.
  cbn [existsb].
  destruct (issubclass (exc_type e) HTTPStatusError) eqn:Hsub.
  - rewrite (status_not_ConnectError _ Hsingle Hsub),
      (status_not_ReadError _ Hsingle Hsub),
      (status_not_WriteError _ Hsingle Hsub),
      (status_not_TimeoutException _ Hsingle Hsub).
    cbn [orb andb]. rewrite !andb_false_r.
    repeat split; try reflexivity.
    destruct (status_code (response e) =? 429) eqn:Hc;
      [ | apply andb_false_r].
    apply Z.eqb_eq in Hc. rewrite Hc. reflexivity.
  - cbn [andb]. rewrite !andb_false_r.
    repeat split; try reflexivity.
    destruct (issubclass (exc_type e) TimeoutException) eqn:Ht;
      [ | rewrite !andb_false_r; reflexivity].
    destruct (issubclass (exc_type e) ConnectError) eqn:Hc;
      [ rewrite (ConnectError_not_TimeoutException _ Hsingle Hc) in Ht;
        discriminate Ht | ].
    destruct (issubclass (exc_type e) ReadError) eqn:Hr;
      [ rewrite (ReadError_not_TimeoutException _ Hsingle Hr) in Ht;
        discriminate Ht | ].
    destruct (issubclass (exc_type e) WriteError) eqn:Hw;
      [ rewrite (WriteError_not_TimeoutException _ Hsingle Hw) in Ht;
        discriminate Ht | ].
    reflexivity.
Qed.

(** ** The composer *)

Lemma retry_any_composed (a : retry_http_errors_args)
    (retry_state : RetryCallState) :
  retry_any (retry_strategies a) retry_state
  = or_default (retry_server_errors a) true
    && retry_if_server_error (server_error_codes a) retry_state
    || or_default (retry_network_errors a) true
       && retry_if_network_error (network_errors a) retry_state
    || or_default (retry_network_timeouts a) true
       && retry_if_network_timeout (network_timeouts a) retry_state
    || or_default (retry_rate_limited a) true
       && retry_if_rate_limited retry_state.
Proof.
  unfold retry_any, retry_strategies.
  replace (retry_if_server_error (server_error_codes a))
    with (retry_if_server_error
            (Some (or_default (server_error_codes a)
                     RETRY_SERVER_ERROR_CODES)))
    by (destruct (server_error_codes a); reflexivity).
  replace (retry_if_network_error (network_errors a))
    with (retry_if_network_error
            (Some (or_default (network_errors a) RETRY_NETWORK_ERRORS)))
    by (destruct (network_errors a); reflexivity).
  replace (retry_if_network_timeout (network_timeouts a))
    with (retry_if_network_timeout
            (Some (or_default (network_timeouts a) RETRY_NETWORK_TIMEOUTS)))
    by (destruct (network_timeouts a); reflexivity).
  destruct (or_default (retry_server_errors a) true),
    (or_default (retry_network_errors a) true),
    (or_default (retry_network_timeouts a) true),
    (or_default (retry_rate_limited a) true);
    cbn [app existsb andb orb]; rewrite ?orb_false_r, ?orb_assoc;
    reflexivity.
Qed.

(** C7, amended: with no retry override the composed predicate is the
    disjunction of the enabled classifiers and of no others, so a failure
    of a disabled category is still retried when an enabled classifier
    matches it too; with the default code and type sets every failure of
    a disabled category whose class is built by single inheritance is
    refused. *)
Theorem disabled_category (a : retry_http_errors_args)
    (retry_state : RetryCallState) (Hretry : dkw_retry a = None) :
  retry (retry_http_errors a) retry_state
  = or_default (retry_server_errors a) true
    && retry_if_server_error (server_error_codes a) retry_state
    || or_default (retry_network_errors a) true
       && retry_if_network_error (network_errors a) retry_state
    || or_default (retry_network_timeouts a) true
       && retry_if_network_timeout (network_timeouts a) retry_state
    || or_default (retry_rate_limited a) true
       && retry_if_rate_limited retry_state
  /\ (server_error_codes a = None -> network_errors a = None ->
      network_timeouts a = None -> singly_derived retry_state ->
      (retry_server_errors a = Some false ->
       retry_if_server_error None retry_state = true ->
       retry (retry_http_errors a) retry_state = false)
      /\ (retry_network_errors a = Some false ->
          retry_if_network_error None retry_state = true ->
          retry (retry_http_errors a) retry_state = false)
      /\ (retry_network_timeouts a = Some false ->
          retry_if_network_timeout None retry_state = true ->
          retry (retry_http_errors a) retry_state = false)
      /\ (retry_rate_limited a = Some false ->
          retry_if_rate_limited retry_state = true ->
          retry (retry_http_errors a) retry_state = false)).
Proof.
  assert (Heq : retry (retry_http_errors a) retry_state
                = retry_any (retry_strategies a) retry_state).
  { unfold retry_http_errors. cbn [retry]. rewrite Hretry. reflexivity. }
  rewrite Heq, retry_any_composed. split; [reflexivity | ].
  intros -> -> -> Hsingle.
  destruct (default_categories_exclusive retry_state Hsingle)
    as (Hsn & Hst & Hsr & Hnt & Hnr & Htr).
  cbv zeta in Hsn, Hst, Hsr, Hnt, Hnr, Htr.
  repeat split; intros -> Hm; rewrite Hm in *; cbn [or_default andb orb];
    rewrite ?andb_true_l, ?andb_true_r in *;
    repeat match goal with
           | H : ?b = false |- _ => rewrite H
           end;
    rewrite ?andb_false_r; reflexivity.
Qed.

(** C9: with the four categories switched off and no retry override, the
    composed predicate is the disjunction of no strategy: false for every
    retry state. *)
Theorem nothing_enabled (a : retry_http_errors_args)
    (retry_state : RetryCallState)
    (Hserver : retry_server_errors a = Some false)
    (Hnetwork : retry_network_errors a = Some false)
    (Htimeout : retry_network_timeouts a = Some false)
    (Hrate : retry_rate_limited a = Some false)
    (Hretry : dkw_retry a = None) :
  retry_strategies a = []
  /\ retry (retry_http_errors a) = retry_any []
  /\ retry (retry_http_errors a) retry_state = false.
Proof.
  assert (Hnil : retry_strategies a = []).
  { unfold retry_strategies.
    rewrite Hserver, Hnetwork, Htimeout, Hrate. reflexivity. }
  unfold retry_http_errors. cbn [retry].
  rewrite Hretry, Hnil. repeat split.
Qed.

(** ** The wait strategies *)

Lemma bind_float_default (m : M pyfloat) (w : World) :
  bind m (fun default => float (PyFloat default)) w = m w.
Proof. unfold bind. destruct (m w) as [[v | e] w']; reflexivity. Qed.

(** What a call of [wait_from_header] does for a status-carrying failure:
    it evaluates the fallback, then converts the header value, or the
    fallback's value when the header is missing. *)
Lemma wait_from_header_status (header : string)
    (fallback : option wait_base) (retry_state : RetryCallState)
    (e : exception) :
  outcome retry_state = Some (Raised e) ->
  issubclass (exc_type e) HTTPStatusError = true ->
  wait_from_header header fallback retry_state
  = bind (fallback_of fallback retry_state)
      (fun default =>
         float (Headers_get (headers (response e)) header (PyFloat default))).
Proof.
  intros Hout Hsub. unfold wait_from_header, fallback_of.
  rewrite Hout. cbn [Future_exception isinstance]. rewrite Hsub.
  reflexivity.
Qed.

Lemma wait_from_header_other (header : string)
    (fallback : option wait_base) (retry_state : RetryCallState) :
  (forall e, outcome retry_state = Some (Raised e) ->
             issubclass (exc_type e) HTTPStatusError = false) ->
  wait_from_header header fallback retry_state
  = fallback_of fallback retry_state.
Proof.
  intros Hno. unfold wait_from_header, fallback_of.
  destruct (outcome retry_state) as [[ | e] | ]; try reflexivity.
  cbn [Future_exception isinstance]. rewrite (Hno e eq_refl). reflexivity.
Qed.

(** The [response] field of an exception that is not status-carrying is
    never read: the classifiers and both wait strategies treat two such
    exceptions of one class alike. *)
Lemma response_unread (c : exc_class) (r1 r2 : Response) (attempt : Z) :
  issubclass c HTTPStatusError = false ->
  let rs1 := mkRetryCallState (Some (Raised (mkException c r1))) attempt in
  let rs2 := mkRetryCallState (Some (Raised (mkException c r2))) attempt in
  (forall codes, retry_if_server_error codes rs1
                 = retry_if_server_error codes rs2)
  /\ (forall errors, retry_if_network_error errors rs1
                     = retry_if_network_error errors rs2)
  /\ (forall timeouts, retry_if_network_timeout timeouts rs1
                       = retry_if_network_timeout timeouts rs2)
  /\ retry_if_rate_limited rs1 = retry_if_rate_limited rs2
  /\ (forall header fallback w,
         fallback_of fallback rs1 w = fallback_of fallback rs2 w ->
         wait_from_header header fallback rs1 w
         = wait_from_header header fallback rs2 w).
Proof.
  intros Hsub rs1 rs2. subst rs1 rs2.
  unfold retry_if_server_error, retry_if_network_error,
    retry_if_network_timeout, retry_if_rate_limited, _is_server_error,
    _is_rate_limited.
  cbn [outcome Future_exception isinstance exc_type]. rewrite Hsub.
  repeat split.
  intros header fallback w Hfb.
  rewrite !wait_from_header_other; [exact Hfb | | ];
    intros e [= <-]; exact Hsub.
Qed.

(** C3, amended: the call evaluates the fallback first.  For a
    status-carrying failure whose response has the header with value "5"
    the call returns 5.0 once the fallback has returned, and raises what
    the fallback raises when it raises; when the header is missing, and
    when the failure is not status-carrying, the call is the
    fallback's. *)
Theorem wait_from_header_value (header : string)
    (fallback : option wait_base) (retry_state : RetryCallState)
    (e : exception) (Hout : outcome retry_state = Some (Raised e)) :
  (issubclass (exc_type e) HTTPStatusError = true ->
   Headers_getitem (headers (response e)) header = Some "5" ->
   forall w v w',
     fallback_of fallback retry_state w = (Ret v, w') ->
     wait_from_header header fallback retry_state w = (Ret (Finite 5), w'))
  /\ (issubclass (exc_type e) HTTPStatusError = true ->
      Headers_getitem (headers (response e)) header = Some "5" ->
      forall w x w',
        fallback_of fallback retry_state w = (Raise x, w') ->
        wait_from_header header fallback retry_state w = (Raise x, w'))
  /\ (issubclass (exc_type e) HTTPStatusError = true ->
      Headers_getitem (headers (response e)) header = None ->
      forall w,
        wait_from_header header fallback retry_state w
        = fallback_of fallback retry_state w)
  /\ (issubclass (exc_type e) HTTPStatusError = false ->
      forall w,
        wait_from_header header fallback retry_state w
        = fallback_of fallback retry_state w).
Proof.
  split; [ | split; [ | split]].
  - intros Hsub Hhdr w v w' Hfb.
    rewrite (wait_from_header_status _ _ _ _ Hout Hsub).
    unfold bind, Headers_get. rewrite Hfb, Hhdr. reflexivity.
  - intros Hsub Hhdr w x w' Hfb.
    rewrite (wait_from_header_status _ _ _ _ Hout Hsub).
    unfold bind. rewrite Hfb. reflexivity.
  - intros Hsub Hhdr w.
    rewrite (wait_from_header_status _ _ _ _ Hout Hsub).
    unfold Headers_get. rewrite Hhdr. apply bind_float_default.
  - intros Hsub w. rewrite wait_from_header_other; [reflexivity | ].
    intros e' He'. rewrite Hout in He'. injection He' as <-. exact Hsub.
Qed.

(** C1, amended: for a status-carrying failure whose response has the
    header with a value [float()] rejects, such as "not-a-number", the
    call raises [ValueError] once the fallback has been evaluated; the
    fallback's value is not returned. *)
Theorem unparsable_header_raises (header : string)
    (fallback : option wait_base) (retry_state : RetryCallState)
    (e : exception) (value : string) (w w' : World) (v : pyfloat)
    (Hout : outcome retry_state = Some (Raised e))
    (Hsub : issubclass (exc_type e) HTTPStatusError = true)
    (Hhdr : Headers_getitem (headers (response e)) header = Some value)
    (Hbad : float_of_str value = None)
    (Hfb : fallback_of fallback retry_state w = (Ret v, w')) :
  wait_from_header header fallback retry_state w = (Raise ValueError, w')
  /\ float_of_str "not-a-number" = None.
Proof.
  split; [ | reflexivity].
  rewrite (wait_from_header_status _ _ _ _ Hout Hsub).
  unfold bind, Headers_get, float. rewrite Hfb, Hhdr, Hbad. reflexivity.
Qed.


(** C10: for a retry state without outcome the four classifiers are
    false, the dispatcher returns zero and [wait_from_header] is the
    fallback's call. *)
Theorem absent_outcome (retry_state : RetryCallState)
    (Hout : outcome retry_state = None) :
  retry_if_rate_limited retry_state = false
  /\ (forall codes, retry_if_server_error codes retry_state = false)
  /\ (forall errors, retry_if_network_error errors retry_state = false)
  /\ (forall timeouts,
         retry_if_network_timeout timeouts retry_state = false)
  /\ (forall ws wn wt wr codes ne nt w,
         wait_context_aware ws wn wt wr codes ne nt retry_state w
         = (Ret (Finite 0), w))
  /\ (forall header fallback w,
         wait_from_header header fallback retry_state w
         = fallback_of fallback retry_state w).
Proof.
  unfold retry_if_rate_limited, retry_if_server_error,
    retry_if_network_error, retry_if_network_timeout, wait_context_aware,
    wait_from_header, fallback_of.
  rewrite Hout. repeat split.
Qed.

Lemma wait_from_header_cases (header : string)
    (fallback : option wait_base) (retry_state : RetryCallState) :
  (exists e, outcome retry_state = Some (Raised e)
             /\ issubclass (exc_type e) HTTPStatusError = true)
  \/ wait_from_header header fallback retry_state
     = fallback_of fallback retry_state.
Proof.
  destruct (outcome retry_state) as [[ | e] | ] eqn:Hout.
  - right. apply wait_from_header_other. intros e He. congruence.
  - destruct (issubclass (exc_type e) HTTPStatusError) eqn:Hsub.
    + left. exists e. auto.
    + right. apply wait_from_header_other.
      intros e' He'. congruence.
  - right. apply wait_from_header_other. intros e He. congruence.
Qed.

(** C2, amended: [wait_from_header] returns the fallback's value or the
    converted header value, and it uses the header value whenever
    [float()] accepts it, whatever its sign; so its result is non-negative
    when the fallback's is and the header, if there, converts to a
    non-negative number.  The dispatcher returns zero or the value of one
    of its four strategies, so its result is non-negative when theirs
    are. *)
Theorem wait_nonneg_conditions :
  (forall header fallback retry_state w v w',
      nonneg_at (fallback_of fallback) retry_state ->
      (forall e value f,
          outcome retry_state = Some (Raised e) ->
          Headers_getitem (headers (response e)) header = Some value ->
          float_of_str value = Some f -> float_nonneg f = true) ->
      wait_from_header header fallback retry_state w = (Ret v, w') ->
      float_nonneg v = true)
  /\ (forall ws wn wt wr codes ne nt retry_state w v w',
         nonneg_at (server_wait_of ws) retry_state ->
         nonneg_at (network_wait_of wn) retry_state ->
         nonneg_at (timeout_wait_of wt) retry_state ->
         nonneg_at (rate_wait_of wr) retry_state ->
         wait_context_aware ws wn wt wr codes ne nt retry_state w
         = (Ret v, w') ->
         float_nonneg v = true)
  /\ (forall header fallback retry_state e value f w v w',
         outcome retry_state = Some (Raised e) ->
         issubclass (exc_type e) HTTPStatusError = true ->
         Headers_getitem (headers (response e)) header = Some value ->
         float_of_str value = Some f ->
         fallback_of fallback retry_state w = (Ret v, w') ->
         wait_from_header header fallback retry_state w = (Ret f, w')).
Proof.
  split; [ | split].
  - intros header fallback retry_state w v w' Hfb Hhdr Hcall.
    destruct (wait_from_header_cases header fallback retry_state)
      as [(e & Hout & Hsub) | Heq].
    + rewrite (wait_from_header_status _ _ _ _ Hout Hsub) in Hcall.
      unfold bind, Headers_get, float in Hcall.
      destruct (fallback_of fallback retry_state w) as [[v0 | x] w0] eqn:E;
        [ | discriminate Hcall].
      destruct (Headers_getitem (headers (response e)) header)
        as [value | ] eqn:Hget.
      * destruct (float_of_str value) as [f | ] eqn:Hf;
          [ | discriminate Hcall].
        injection Hcall as <- _. exact (Hhdr e value f Hout Hget Hf).
      * injection Hcall as <- _. exact (Hfb w v0 w0 E).
    + rewrite Heq in Hcall. exact (Hfb w v w' Hcall).
  - intros ws wn wt wr codes ne nt retry_state w v w' Hs Hn Ht Hr.
    unfold wait_context_aware. cbv zeta.
    destruct (outcome retry_state) as [fut | ].
    + destruct (_is_server_error _ _); [apply Hs | ].
      destruct (isinstance _ (or_default ne _)); [apply Hn | ].
      destruct (isinstance _ (or_default nt _)); [apply Ht | ].
      destruct (_is_rate_limited _); [apply Hr | ].
      intros [= <- _]. reflexivity.
    + intros [= <- _]. reflexivity.
  - intros header fallback retry_state e value f w v w'
      Hout Hsub Hget Hf Hfb.
    rewrite (wait_from_header_status _ _ _ _ Hout Hsub).
    unfold bind, Headers_get, float. rewrite Hfb, Hget, Hf. reflexivity.
Qed.

Lemma wait_from_header_deterministic (header : string)
    (fallback : option wait_base) (retry_state : RetryCallState) :
  deterministic_at (fallback_of fallback) retry_state ->
  deterministic_at (wait_from_header header fallback) retry_state.
Proof.
  intros Hdet. unfold deterministic_at.
  destruct (wait_from_header_cases header fallback retry_state)
    as [(e & Hout & Hsub) | Heq].
  - rewrite (wait_from_header_status _ _ _ _ Hout Hsub).
    intros w1 w2. specialize (Hdet w1 w2). unfold bind, float.
    destruct (fallback_of fallback retry_state w1) as [[v1 | x1] w1'],
      (fallback_of fallback retry_state w2) as [[v2 | x2] w2'];
      cbn [fst] in Hdet; try discriminate Hdet.
    + injection Hdet as ->.
      destruct (Headers_get _ _ _) as [value | f]; [ | reflexivity].
      destruct (float_of_str value); reflexivity.
    + exact Hdet.
  - rewrite Heq. exact Hdet.
Qed.

Lemma wait_context_aware_deterministic
    (ws wn wt wr : option wait_base) (codes : option status_codes_arg)
    (ne nt : option classinfo) (retry_state : RetryCallState) :
  deterministic_at (server_wait_of ws) retry_state ->
  deterministic_at (network_wait_of wn) retry_state ->
  deterministic_at (timeout_wait_of wt) retry_state ->
  deterministic_at (rate_wait_of wr) retry_state ->
  deterministic_at (wait_context_aware ws wn wt wr codes ne nt) retry_state.
Proof.
  intros Hs Hn Ht Hr. unfold wait_context_aware, deterministic_at.
  cbv beta zeta.
  destruct (outcome retry_state) as [fut | ].
  - destruct (_is_server_error _ _); [exact Hs | ].
    destruct (isinstance _ (or_default ne _)); [exact Hn | ].
    destruct (isinstance _ (or_default nt _)); [exact Ht | ].
    destruct (_is_rate_limited _); [exact Hr | ].
    intros w1 w2. reflexivity.
  - intros w1 w2. reflexivity.
Qed.

(** C8, amended: a classifier reads nothing but the configuration and the
    outcome, so retry states with the same outcome get the same answer;
    the dispatcher keeps no state of its own, and a second call on the
    same retry state, made in the world the first call left, gives the
    same result as the first whenever the configured strategies are
    deterministic (a header-driven strategy is when its fallback is). *)
Theorem repeated_calls_agree :
  (forall codes errors timeouts rs1 rs2,
      outcome rs1 = outcome rs2 ->
      retry_if_server_error codes rs1 = retry_if_server_error codes rs2
      /\ retry_if_network_error errors rs1
         = retry_if_network_error errors rs2
      /\ retry_if_network_timeout timeouts rs1
         = retry_if_network_timeout timeouts rs2
      /\ retry_if_rate_limited rs1 = retry_if_rate_limited rs2)
  /\ (forall ws wn wt wr codes ne nt retry_state w,
         deterministic_at (server_wait_of ws) retry_state ->
         deterministic_at (network_wait_of wn) retry_state ->
         deterministic_at (timeout_wait_of wt) retry_state ->
         deterministic_at (rate_wait_of wr) retry_state ->
         let dispatch :=
           wait_context_aware ws wn wt wr codes ne nt retry_state in
         fst (dispatch (snd (dispatch w))) = fst (dispatch w))
  /\ (forall header fallback retry_state,
         deterministic_at (fallback_of fallback) retry_state ->
         deterministic_at (wait_from_header header fallback) retry_state).
Proof.
  split; [ | split].
  - intros codes errors timeouts rs1 rs2 Hout.
    unfold retry_if_server_error, retry_if_network_error,
      retry_if_network_timeout, retry_if_rate_limited.
    rewrite Hout. repeat split.
  - intros ws wn wt wr codes ne nt retry_state w Hs Hn Ht Hr dispatch.
    apply (wait_context_aware_deterministic ws wn wt wr codes ne nt
             retry_state Hs Hn Ht Hr).
  - exact wait_from_header_deterministic.
Qed.

(** ** Further properties of the classifiers *)

(** The classes a class-or-tuple argument names. *)
Definition classes_of (ci : classinfo) : list exc_class :=
  match ci with
  | Class c => [c]
  | Classes cs => cs
  end.

(** Every class named by [sub] derives from a class named by [sup]. *)
Definition covered_by (sub sup : classinfo) : Prop :=
  forall c, In c (classes_of sub) ->
            exists c', In c' (classes_of sup) /\ issubclass c c' = true.

Lemma issubclass_In (c d : exc_class) :
  issubclass c d = true <-> In d (mro c).
Proof.
  unfold issubclass. rewrite existsb_exists. split.
  - intros (x & Hin & Heq). apply exc_class_eqb_eq in Heq. congruence.
  - intros Hin. exists d. split; [exact Hin | apply exc_class_eqb_refl].
Qed.

Lemma mro_ancestors (c d : exc_class) :
  In d (mro c) -> incl (mro d) (mro c).
Proof.
  induction c as [c Hdecl | name bases IH] using exc_class_nested_ind.
  - destruct c; try discriminate Hdecl; intros Hin; simpl in Hin;
      repeat (destruct Hin as [<- | Hin];
              [intros x Hx; simpl in *; tauto | ]);
      contradiction.
  - cbn [mro]. intros [<- | Hin].
    + apply incl_refl.
    + apply incl_tl. apply in_flat_map in Hin.
      destruct Hin as (base & Hbase & Hd).
      rewrite Forall_forall in IH. intros x Hx.
      apply in_flat_map. exists base.
      split; [exact Hbase | exact (IH base Hbase Hd x Hx)].
Qed.

Lemma issubclass_trans (c d e : exc_class) :
  issubclass c d = true -> issubclass d e = true -> issubclass c e = true.
Proof.
  rewrite !issubclass_In. intros Hcd Hde.
  exact (mro_ancestors c d Hcd e Hde).
Qed.

Lemma isinstance_true (e : exception) (ci : classinfo) :
  isinstance (Some e) ci = true <->
  exists c, In c (classes_of ci) /\ issubclass (exc_type e) c = true.
Proof.
  destruct ci as [c | cs]; cbn [isinstance classes_of].
  - split.
    + intros H. exists c. split; [left; reflexivity | exact H].
    + intros (c' & [<- | []] & H). exact H.
  - apply existsb_exists.
Qed.

Lemma isinstance_widen (e : exception) (sub sup : classinfo) :
  covered_by sub sup ->
  isinstance (Some e) sub = true -> isinstance (Some e) sup = true.
Proof.
  intros Hcov Hsub. apply isinstance_true in Hsub.
  destruct Hsub as (c & Hin & Hc).
  destruct (Hcov c Hin) as (c' & Hin' & Hc').
  apply isinstance_true. exists c'. split; [exact Hin' | ].
  exact (issubclass_trans _ _ _ Hc Hc').
Qed.

(** X1: the network-error classifier holds exactly for a failure whose
    class derives from one of the configured classes; with the classes
    left out, among [BaseException], [Exception] and httpx's own classes
    it holds for [ConnectError], [ReadError] and [WriteError] and for no
    other, so not for [CloseError], for [NetworkError] itself or for a
    timeout. *)
Theorem network_error_classifier :
  (forall errors retry_state,
      retry_if_network_error errors retry_state = true <->
      exists e c,
        outcome retry_state = Some (Raised e)
        /\ In c (classes_of (or_default errors RETRY_NETWORK_ERRORS))
        /\ issubclass (exc_type e) c = true)
  /\ (forall e attempt,
         declared_class (exc_type e) = true ->
         (retry_if_network_error None
            (mkRetryCallState (Some (Raised e)) attempt) = true <->
          exc_type e = ConnectError \/ exc_type e = ReadError
          \/ exc_type e = WriteError)).
Proof.
  split.
  - intros errors retry_state. unfold retry_if_network_error.
    destruct (outcome retry_state) as [[ | e] | ].
    + split; [discriminate | ]. intros (e & c & He & _). discriminate He.
    + cbn [Future_exception]. rewrite isinstance_true. split.
      * intros (c & Hin & Hc). exists e, c. auto.
      * intros (e' & c & [= <-] & Hin & Hc). exists c. auto.
    + split; [discriminate | ]. intros (e & c & He & _). discriminate He.
  - intros [c r] attempt Hdecl. cbn [exc_type] in *.
    destruct c; try discriminate Hdecl; vm_compute;
      (split; [intros H; try discriminate H; auto
              | intros [H | [H | H]]; try discriminate H; reflexivity]).
Qed.

(** X2: the network-timeout classifier holds exactly for a failure whose
    class derives from one of the configured classes; with the classes
    left out, among [BaseException], [Exception] and httpx's own classes
    it holds for [TimeoutException] and its four subclasses and for no
    other. *)
Theorem network_timeout_classifier :
  (forall timeouts retry_state,
      retry_if_network_timeout timeouts retry_state = true <->
      exists e c,
        outcome retry_state = Some (Raised e)
        /\ In c (classes_of (or_default timeouts RETRY_NETWORK_TIMEOUTS))
        /\ issubclass (exc_type e) c = true)
  /\ (forall e attempt,
         declared_class (exc_type e) = true ->
         (retry_if_network_timeout None
            (mkRetryCallState (Some (Raised e)) attempt) = true <->
          exc_type e = TimeoutException \/ exc_type e = ConnectTimeout
          \/ exc_type e = ReadTimeout \/ exc_type e = WriteTimeout
          \/ exc_type e = PoolTimeout)).
Proof.
  split.
  - intros timeouts retry_state. unfold retry_if_network_timeout.
    destruct (outcome retry_state) as [[ | e] | ].
    + split; [discriminate | ]. intros (e & c & He & _). discriminate He.
    + cbn [Future_exception]. rewrite isinstance_true. split.
      * intros (c & Hin & Hc). exists e, c. auto.
      * intros (e' & c & [= <-] & Hin & Hc). exists c. auto.
    + split; [discriminate | ]. intros (e & c & He & _). discriminate He.
  - intros [c r] attempt Hdecl. cbn [exc_type] in *.
    destruct c; try discriminate Hdecl; vm_compute;
      (split; [intros H; try discriminate H; auto 6
              | intros [H | [H | [H | [H | H]]]]; try discriminate H;
                reflexivity]).
Qed.

(** X3: widening a configured set never loses a retry.  A failure the
    server-error classifier accepts for some codes is accepted for any
    codes that include them; a failure the network-error or the
    network-timeout classifier accepts for some classes is accepted for
    any classes that cover them, base classes of them included. *)
Theorem widening_keeps_retries :
  (forall cs cs' retry_state,
      incl cs cs' ->
      retry_if_server_error (Some (CodeSeq cs)) retry_state = true ->
      retry_if_server_error (Some (CodeSeq cs')) retry_state = true)
  /\ (forall errors errors' retry_state,
         covered_by errors errors' ->
         retry_if_network_error (Some errors) retry_state = true ->
         retry_if_network_error (Some errors') retry_state = true)
  /\ (forall timeouts timeouts' retry_state,
         covered_by timeouts timeouts' ->
         retry_if_network_timeout (Some timeouts) retry_state = true ->
         retry_if_network_timeout (Some timeouts') retry_state = true).
Proof.
  split; [ | split].
  - intros cs cs' retry_state Hincl H.
    apply retry_if_server_error_true in H.
    destruct H as (code & Hf & Hin).
    apply retry_if_server_error_true. exists code. auto.
  - intros errors errors' retry_state Hcov.
    unfold retry_if_network_error, or_default.
    destruct (outcome retry_state) as [[ | e] | ]; try discriminate.
    apply isinstance_widen. exact Hcov.
  - intros timeouts timeouts' retry_state Hcov.
    unfold retry_if_network_timeout, or_default.
    destruct (outcome retry_state) as [[ | e] | ]; try discriminate.
    apply isinstance_widen. exact Hcov.
Qed.

(** X4: in the default configuration the four categories are disjoint
    on the failures whose class is built by single inheritance, as
    httpx's own classes are: for a retry state with such a failure, or
    with none, at most one of the four classifiers holds. *)
Theorem default_classifiers_disjoint (retry_state : RetryCallState)
    (Hsingle : singly_derived retry_state) :
  (List.length
     (filter (fun r : retry_base => r retry_state)
        [retry_if_server_error None; retry_if_network_error None;
         retry_if_network_timeout None; retry_if_rate_limited]) <= 1)%nat.
Proof.
  destruct (default_categories_exclusive retry_state Hsingle)
    as (Hsn & Hst & Hsr & Hnt & Hnr & Htr).
  cbv zeta in Hsn, Hst, Hsr, Hnt, Hnr, Htr. cbn [filter].
  destruct (retry_if_server_error None retry_state),
    (retry_if_network_error None retry_state),
    (retry_if_network_timeout None retry_state),
    (retry_if_rate_limited retry_state);
    try discriminate; cbn [List.length]; lia.
Qed.

(** X5: called without codes, [_is_server_error] accepts exactly the
    status-carrying failures with a status from 500 to 599; every failure
    the default server-error classifier accepts is among them. *)
Theorem is_server_error_5xx :
  (forall exc,
      _is_server_error exc _is_server_error_default = true <->
      exists e, exc = Some e
                /\ issubclass (exc_type e) HTTPStatusError = true
                /\ 500 <= status_code (response e) <= 599)
  /\ (forall retry_state fut,
         outcome retry_state = Some fut ->
         retry_if_server_error None retry_state = true ->
         _is_server_error (Future_exception fut) _is_server_error_default
         = true).
Proof.
  assert (Hrange : forall c,
             In c (map Z.of_nat (seq 500 100)) <-> 500 <= c <= 599).
  { intros c. rewrite in_map_iff. split.
    - intros (n & <- & Hn). apply in_seq in Hn. lia.
    - intros Hc. exists (Z.to_nat c). split; [lia | ].
      apply in_seq. lia. }
  split.
  - intros exc. unfold _is_server_error_default.
    rewrite _is_server_error_true.
    split; intros (e & He & Hsub & Hc); exists e;
      (split; [exact He | split; [exact Hsub | ]]); apply Hrange; exact Hc.
  - intros retry_state fut Hout H.
    unfold retry_if_server_error, or_default, RETRY_SERVER_ERROR_CODES in H.
    rewrite Hout in H. apply _is_server_error_true in H.
    destruct H as (e & He & Hsub & Hc).
    unfold _is_server_error_default. apply _is_server_error_true.
    exists e. split; [exact He | split; [exact Hsub | ]].
    apply Hrange. simpl in Hc. lia.
Qed.

(** X6: an attempt that returned is never classified as a failure: the
    four classifiers are false whatever their configuration, the composed
    predicate of a policy without retry override is false, the dispatcher
    returns zero without calling a strategy and [wait_from_header] is the
    fallback's call. *)
Theorem success_never_retried (retry_state : RetryCallState)
    (Hout : outcome retry_state = Some Returned) :
  retry_if_rate_limited retry_state = false
  /\ (forall codes, retry_if_server_error codes retry_state = false)
  /\ (forall errors, retry_if_network_error errors retry_state = false)
  /\ (forall timeouts,
         retry_if_network_timeout timeouts retry_state = false)
  /\ (forall a, dkw_retry a = None ->
                retry (retry_http_errors a) retry_state = false)
  /\ (forall ws wn wt wr codes ne nt w,
         wait_context_aware ws wn wt wr codes ne nt retry_state w
         = (Ret (Finite 0), w))
  /\ (forall header fallback w,
         wait_from_header header fallback retry_state w
         = fallback_of fallback retry_state w).
Proof.
  assert (Hs : forall codes, retry_if_server_error codes retry_state = false).
  { intros codes. unfold retry_if_server_error. rewrite Hout.
    reflexivity. }
  assert (Hn : forall errors,
             retry_if_network_error errors retry_state = false).
  { intros errors. unfold retry_if_network_error. rewrite Hout.
    reflexivity. }
  assert (Ht : forall timeouts,
             retry_if_network_timeout timeouts retry_state = false).
  { intros timeouts. unfold retry_if_network_timeout. rewrite Hout.
    reflexivity. }
  assert (Hr : retry_if_rate_limited retry_state = false).
  { unfold retry_if_rate_limited. rewrite Hout. reflexivity. }
  repeat split; auto.
  - intros a Hretry. unfold retry_http_errors. cbn [retry].
    rewrite Hretry. cbn [or_default].
    rewrite retry_any_composed, Hs, Hn, Ht, Hr, !andb_false_r.
    reflexivity.
  - intros ws wn wt wr codes ne nt w. unfold wait_context_aware.
    rewrite Hout. reflexivity.
  - intros header fallback w. unfold wait_from_header, fallback_of.
    rewrite Hout. reflexivity.
Qed.

(** ** Further properties of the wait strategies and of the composer *)

Lemma float_world (x : pyobj) (w : World) : snd (float x w) = w.
Proof.
  destruct x as [s | f]; cbn [float]; [ | reflexivity].
  destruct (float_of_str s); reflexivity.
Qed.

(** X7: every call of [wait_from_header] evaluates the fallback, also
    when the header is there and is used: the call leaves the world as
    the fallback's call leaves it, and when the fallback raises the call
    raises the same exception whatever the header holds. *)
Theorem fallback_evaluated_first (header : string)
    (fallback : option wait_base) (retry_state : RetryCallState)
    (w : World) :
  snd (wait_from_header header fallback retry_state w)
  = snd (fallback_of fallback retry_state w)
  /\ (forall x w',
         fallback_of fallback retry_state w = (Raise x, w') ->
         wait_from_header header fallback retry_state w = (Raise x, w')).
Proof.
  destruct (wait_from_header_cases header fallback retry_state)
    as [(e & Hout & Hsub) | Heq].
  - rewrite (wait_from_header_status _ _ _ _ Hout Hsub). unfold bind.
    destruct (fallback_of fallback retry_state w) as [[v | x] w0].
    + split; [apply float_world | discriminate].
    + split; [reflexivity | auto].
  - rewrite Heq. split; [reflexivity | auto].
Qed.

(** An ASCII character no float literal starts with: not a space, a
    digit, a sign, a dot or the first letter of "inf" and "nan". *)
Definition cannot_start_float (c : ascii) : bool :=
  (nat_of_ascii c <? 128)%nat
  && negb (is_space c) && negb (is_digit c)
  && negb (Ascii.eqb c "-") && negb (Ascii.eqb c "+")
  && negb (Ascii.eqb c ".")
  && negb (Ascii.eqb (ascii_lower c) "i")
  && negb (Ascii.eqb (ascii_lower c) "n").

Lemma lstrip_last (c : ascii) (l : list ascii) :
  is_space c = false ->
  exists l', lstrip (l ++ [c])%list = (l' ++ [c])%list.
Proof.
  intros Hc. induction l as [ | a l IH]; cbn [app lstrip].
  - rewrite Hc. exists []. reflexivity.
  - destruct (is_space a); [exact IH | ].
    exists (a :: l). reflexivity.
Qed.

Lemma strip_head (c : ascii) (s : list ascii) :
  is_space c = false -> exists l, strip (c :: s) = c :: l.
Proof.
  intros Hc. unfold strip. cbn [lstrip]. rewrite Hc. cbn [rev].
  destruct (lstrip_last c (rev s) Hc) as (l' & ->).
  exists (rev l'). rewrite rev_app_distr. reflexivity.
Qed.

Lemma float_of_str_first_char (c : ascii) (rest : string) :
  cannot_start_float c = true -> float_of_str (String c rest) = None.
Proof.
  unfold cannot_start_float. rewrite !andb_true_iff, !negb_true_iff.
  intros (((((((_ & Hsp) & Hdig) & Hminus) & Hplus) & Hdot) & Hi) & Hn).
  unfold float_of_str. cbn [list_ascii_of_string].
  destruct (strip_head c (list_ascii_of_string rest) Hsp) as (l & ->).
  unfold opt_sign. rewrite Hminus, Hplus.
  cbn [map string_of_list_ascii String.eqb]. rewrite Hi, Hn.
  cbn [andb orb].
  unfold floatnumber, number, digitpart. rewrite Hdig, Hdot. reflexivity.
Qed.

(** X8: a [Retry-After] value that starts with an ASCII character no
    float literal starts with, as every HTTP-date does with its day name,
    makes [wait_retry_after_header] raise [ValueError] for a
    status-carrying failure, once the fallback has returned. *)
Theorem retry_after_date_raises (header : option string)
    (fallback : option wait_base) (retry_state : RetryCallState)
    (e : exception) (c : ascii) (rest : string) (w w' : World)
    (v : pyfloat)
    (Hout : outcome retry_state = Some (Raised e))
    (Hsub : issubclass (exc_type e) HTTPStatusError = true)
    (Hhdr : Headers_getitem (headers (response e))
              (or_default header "Retry-After") = Some (String c rest))
    (Hc : cannot_start_float c = true)
    (Hfb : fallback_of fallback retry_state w = (Ret v, w')) :
  wait_retry_after_header header fallback retry_state w
  = (Raise ValueError, w').
Proof.
  unfold wait_retry_after_header.
  rewrite (wait_from_header_status _ _ _ _ Hout Hsub).
  unfold bind, Headers_get, float.
  change (fallback_of
            (Some (or_default fallback
                     (wait_exponential_jitter (Some 1%Q) (Some 15%Q)))))
    with (fallback_of fallback).
  rewrite Hfb, Hhdr, (float_of_str_first_char c rest Hc). reflexivity.
Qed.

Lemma status_failure_default_sets (retry_state : RetryCallState)
    (e : exception) :
  outcome retry_state = Some (Raised e) ->
  issubclass (exc_type e) HTTPStatusError = true ->
  single_inheritance (exc_type e) = true ->
  retry_if_network_error None retry_state = false
  /\ retry_if_network_timeout None retry_state = false.
Proof.
  intros Hout Hsub Hsingle.
  unfold retry_if_network_error, retry_if_network_timeout, or_default,
    RETRY_NETWORK_ERRORS, RETRY_NETWORK_TIMEOUTS.
  rewrite Hout. cbn [Future_exception isinstance existsb].
  rewrite (status_not_ConnectError _ Hsingle Hsub),
    (status_not_ReadError _ Hsingle Hsub),
    (status_not_WriteError _ Hsingle Hsub),
    (status_not_TimeoutException _ Hsingle Hsub).
  split; reflexivity.
Qed.

(** X10: the policy's dispatcher is built without the configured codes,
    so it classifies with the default sets.  For a status-carrying
    failure whose class is built by single inheritance and whose status
    is neither a default server code nor 429, the policy's wait is zero,
    and no strategy is called; the policy still retries such a failure
    when its status is among the configured server codes. *)
Theorem custom_code_retried_without_wait (a : retry_http_errors_args)
    (retry_state : RetryCallState) (e : exception) (w : World)
    (Hwait : dkw_wait a = None)
    (Hout : outcome retry_state = Some (Raised e))
    (Hsub : issubclass (exc_type e) HTTPStatusError = true)
    (Hsingle : single_inheritance (exc_type e) = true)
    (Hcode : ~ In (status_code (response e)) [500; 502; 504; 503; 429]) :
  wait (retry_http_errors a) retry_state w = (Ret (Finite 0), w)
  /\ (forall cs,
         dkw_retry a = None ->
         or_default (retry_server_errors a) true = true ->
         server_error_codes a = Some (CodeSeq cs) ->
         In (status_code (response e)) cs ->
         retry (retry_http_errors a) retry_state = true).
Proof.
  assert (Hfail : status_failure retry_state (status_code (response e))).
  { exists e. auto. }
  split.
  - destruct (status_failure_default_sets retry_state e Hout Hsub Hsingle)
      as (Hn & Ht).
    assert (Hs : retry_if_server_error None retry_state = false).
    { destruct (retry_if_server_error None retry_state) eqn:E;
        [ | reflexivity].
      apply retry_if_server_error_true in E.
      destruct E as (code' & (e' & He' & _ & Hc') & Hin).
      rewrite Hout in He'. injection He' as <-. subst code'.
      exfalso. apply Hcode. simpl in *. tauto. }
    assert (Hr : retry_if_rate_limited retry_state = false).
    { destruct (retry_if_rate_limited retry_state) eqn:E; [ | reflexivity].
      apply retry_if_rate_limited_true in E.
      destruct E as (e' & He' & _ & Hc').
      rewrite Hout in He'. injection He' as <-.
      exfalso. apply Hcode. rewrite Hc'. simpl. tauto. }
    unfold retry_http_errors. cbn [wait]. rewrite Hwait.
    unfold retry_if_server_error, retry_if_network_error,
      retry_if_network_timeout, retry_if_rate_limited in Hs, Hn, Ht, Hr.
    unfold wait_context_aware. cbn [or_default] in *.
    rewrite Hout in *. rewrite Hs, Hn, Ht, Hr. reflexivity.
  - intros cs Hretry Hon Hcodes Hin.
    unfold retry_http_errors. cbn [retry]. rewrite Hretry.
    cbn [or_default]. rewrite retry_any_composed, Hon, Hcodes.
    assert (Hs : retry_if_server_error (Some (CodeSeq cs)) retry_state
                 = true).
    { apply retry_if_server_error_true.
      exists (status_code (response e)). auto. }
    rewrite Hs. reflexivity.
Qed.

(** X11: for a policy without wait override and a failure whose class
    is built by single inheritance and which belongs to a category under
    the default sets, the policy's wait is the call of that category's
    strategy, the configured one or its default. *)
Theorem policy_wait_by_category (a : retry_http_errors_args)
    (retry_state : RetryCallState) (w : World)
    (Hwait : dkw_wait a = None)
    (Hsingle : singly_derived retry_state) :
  (retry_if_server_error None retry_state = true ->
   wait (retry_http_errors a) retry_state w
   = or_default (wait_server_errors a)
       (wait_exponential_jitter (Some 1%Q) (Some 15%Q)) retry_state w)
  /\ (retry_if_network_error None retry_state = true ->
      wait (retry_http_errors a) retry_state w
      = or_default (wait_network_errors a)
          (wait_exponential (Some 1%Q) (Some 15%Q)) retry_state w)
  /\ (retry_if_network_timeout None retry_state = true ->
      wait (retry_http_errors a) retry_state w
      = or_default (wait_network_timeouts a)
          (wait_exponential_jitter (Some 1%Q) (Some 15%Q)) retry_state w)
  /\ (retry_if_rate_limited retry_state = true ->
      wait (retry_http_errors a) retry_state w
      = or_default (wait_rate_limited a)
          (wait_retry_after_header None None) retry_state w).
Proof.
  destruct (default_categories_exclusive retry_state Hsingle)
    as (Hsn & Hst & Hsr & Hnt & Hnr & Htr).
  cbv zeta in Hsn, Hst, Hsr, Hnt, Hnr, Htr.
  unfold retry_http_errors. cbn [wait]. rewrite Hwait.
  unfold retry_if_server_error, retry_if_network_error,
    retry_if_network_timeout, retry_if_rate_limited in *.
  unfold wait_context_aware. cbn [or_default] in *.
  destruct (outcome retry_state) as [fut | ];
    [ | repeat split; discriminate].
  destruct (_is_server_error _ _), (isinstance _ RETRY_NETWORK_ERRORS),
    (isinstance _ RETRY_NETWORK_TIMEOUTS), (_is_rate_limited _);
    try discriminate; repeat split; intros; try discriminate; reflexivity.
Qed.

(** X12: without a stop override the policy stops at an attempt exactly
    when its number has reached [max_attempt_number], 3 when left out,
    whatever the outcome; so once the policy stops it stops at every
    later attempt, and with a [max_attempt_number] of 1 or less it stops
    at the first attempt. *)
Theorem stop_from_max_attempt (a : retry_http_errors_args)
    (Hstop : dkw_stop a = None) :
  (forall retry_state,
      stop (retry_http_errors a) retry_state = true <->
      or_default (max_attempt_number a) 3 <= attempt_number retry_state)
  /\ (forall rs rs',
         attempt_number rs <= attempt_number rs' ->
         stop (retry_http_errors a) rs = true ->
         stop (retry_http_errors a) rs' = true)
  /\ (forall retry_state,
         or_default (max_attempt_number a) 3 <= 1 ->
         1 <= attempt_number retry_state ->
         stop (retry_http_errors a) retry_state = true).
Proof.
  assert (Heq : forall retry_state,
             stop (retry_http_errors a) retry_state = true <->
             or_default (max_attempt_number a) 3
             <= attempt_number retry_state).
  { intros retry_state. unfold retry_http_errors. cbn [stop].
    rewrite Hstop. cbn [or_default]. unfold stop_after_attempt.
    apply Z.leb_le. }
  split; [exact Heq | split].
  - intros rs rs' Hle H. apply Heq. apply Heq in H. lia.
  - intros retry_state Hmax Hatt. apply Heq. lia.
Qed.

(** X13: [wait_from_header] returns a value exactly when the fallback
    returns one and the header, if the failure is status-carrying and its
    response has it, holds a value [float()] accepts; in every other case
    the call raises. *)
Theorem wait_from_header_returns_iff (header : string)
    (fallback : option wait_base) (retry_state : RetryCallState)
    (w : World) :
  (exists v w', wait_from_header header fallback retry_state w = (Ret v, w'))
  <->
  (exists v0 w', fallback_of fallback retry_state w = (Ret v0, w'))
  /\ (forall e value,
         outcome retry_state = Some (Raised e) ->
         issubclass (exc_type e) HTTPStatusError = true ->
         Headers_getitem (headers (response e)) header = Some value ->
         float_of_str value <> None).
Proof.
  assert (Hother :
            (forall e, outcome retry_state = Some (Raised e) ->
                       issubclass (exc_type e) HTTPStatusError = false) ->
            (exists v w',
                wait_from_header header fallback retry_state w = (Ret v, w'))
            <->
            (exists v0 w', fallback_of fallback retry_state w = (Ret v0, w'))
            /\ (forall e value,
                   outcome retry_state = Some (Raised e) ->
                   issubclass (exc_type e) HTTPStatusError = true ->
                   Headers_getitem (headers (response e)) header
                   = Some value ->
                   float_of_str value <> None)).
  { intros Hno. rewrite (wait_from_header_other _ _ _ Hno). split.
    - intros Hret. split; [exact Hret | ].
      intros e value He Hsub _. rewrite (Hno e He) in Hsub.
      discriminate Hsub.
    - intros (Hret & _). exact Hret. }
  destruct (outcome retry_state) as [[ | e] | ] eqn:Hout;
    try (apply Hother; intros e0 He0; discriminate He0).
  destruct (issubclass (exc_type e) HTTPStatusError) eqn:Hsub;
    [ | apply Hother; intros e0 [= <-]; exact Hsub].
  clear Hother.
  rewrite (wait_from_header_status _ _ _ _ Hout Hsub).
  unfold bind, Headers_get, float.
  destruct (fallback_of fallback retry_state w) as [[v0 | x] w0].
  - destruct (Headers_getitem (headers (response e)) header)
      as [value | ] eqn:Hget.
    + destruct (float_of_str value) as [f | ] eqn:Hf.
      * split; [ | intros _; exists f, w0; reflexivity].
        intros _. split; [exists v0, w0; reflexivity | ].
        intros e' value' [= <-] _ Hget'.
        rewrite Hget in Hget'. injection Hget' as <-.
        rewrite Hf. discriminate.
      * split.
        -- intros (v & w' & H). discriminate H.
        -- intros (_ & Hok). exfalso.
           exact (Hok e value eq_refl Hsub Hget Hf).
    + split; [ | intros _; exists v0, w0; reflexivity].
      intros _. split; [exists v0, w0; reflexivity | ].
      intros e' value' [= <-] _ Hget'.
      rewrite Hget in Hget'. discriminate Hget'.
  - split.
    + intros (v & w' & H). discriminate H.
    + intros ((v0 & w' & H) & _). discriminate H.
Qed.

(** X14: end to end, for a policy with neither a wait override nor a
    rate-limit strategy of its own, a 429 failure whose class is built by
    single inheritance and whose response has a [Retry-After] value
    [float()] accepts waits for exactly that value,
    once the default jittered fallback has returned; with the rate-limit
    category enabled and no retry override the policy retries it. *)
Theorem policy_honours_retry_after (a : retry_http_errors_args)
    (retry_state : RetryCallState) (e : exception) (value : string)
    (f v0 : pyfloat) (w w' : World)
    (Hwait : dkw_wait a = None)
    (Hrate : wait_rate_limited a = None)
    (Hout : outcome retry_state = Some (Raised e))
    (Hsub : issubclass (exc_type e) HTTPStatusError = true)
    (Hsingle : single_inheritance (exc_type e) = true)
    (Hcode : status_code (response e) = 429)
    (Hhdr : Headers_getitem (headers (response e)) "Retry-After"
            = Some value)
    (Hf : float_of_str value = Some f)
    (Hfb : wait_exponential_jitter (Some 1%Q) (Some 15%Q) retry_state w
           = (Ret v0, w')) :
  wait (retry_http_errors a) retry_state w = (Ret f, w')
  /\ (dkw_retry a = None ->
      or_default (retry_rate_limited a) true = true ->
      retry (retry_http_errors a) retry_state = true).
Proof.
  assert (Hr : retry_if_rate_limited retry_state = true).
  { apply retry_if_rate_limited_true. exists e. auto. }
  split.
  - assert (Hsd : singly_derived retry_state).
    { intros e' He'. rewrite Hout in He'. injection He' as <-.
      exact Hsingle. }
    destruct (default_categories_exclusive retry_state Hsd)
      as (_ & _ & Hsr & _ & Hnr & Htr).
    cbv zeta in Hsr, Hnr, Htr. rewrite Hr, andb_true_r in Hsr, Hnr, Htr.
    unfold retry_http_errors. cbn [wait]. rewrite Hwait, Hrate.
    unfold retry_if_server_error, retry_if_network_error,
      retry_if_network_timeout, retry_if_rate_limited in Hsr, Hnr, Htr, Hr.
    unfold wait_context_aware. cbn [or_default] in *.
    rewrite Hout in *. rewrite Hsr, Hnr, Htr, Hr.
    unfold wait_retry_after_header. cbn [or_default].
    rewrite (wait_from_header_status _ _ _ _ Hout Hsub).
    unfold bind, Headers_get, float, fallback_of. cbn [or_default].
    rewrite Hfb, Hhdr, Hf. reflexivity.
  - intros Hretry Hon. unfold retry_http_errors. cbn [retry].
    rewrite Hretry. cbn [or_default].
    rewrite retry_any_composed, Hon, Hr. cbn [andb].
    apply orb_true_r.
Qed.

End Retryhttp.

(** ** A world to run the module in

    Python's [random] module as the only mutable state, with tenacity's
    two backoff strategies on top of it.  The general statements above
    hold for every world and every pair of strategies; the ones here
    serve the concrete runs below. *)

(** The numbers [random.random()] is going to return, in order (0 once
    the list is used up). *)
Definition RandomState : Type := list Q.

Definition random_uniform (a b : Q) : @M RandomState Q :=
  fun w =>
    match w with
    | u :: w' => (Ret (a + (b - a) * u)%Q, w')
    | [] => (Ret a, [])
    end.

(** [tenacity._utils.MAX_WAIT], [sys.maxsize / 2]: the division rounds
    to the float 2^62. *)
Definition MAX_WAIT : Q := 2 ^ 62 # 1.

(** [tenacity.wait_exponential_jitter(initial=1, max=MAX_WAIT)], with
    [exp_base=2] and [jitter=1], in exact arithmetic. *)
Definition tenacity_wait_exponential_jitter (initial max : option Q)
  : @wait_base RandomState :=
  let initial := or_default initial 1%Q in
  let max := or_default max MAX_WAIT in
  fun retry_state =>
    bind (random_uniform 0 1)
      (fun jitter =>
         let exp := Qpower 2 (attempt_number retry_state - 1) in
         let result := (initial * exp + jitter)%Q in
         ret (Finite (Qred (Qmax 0 (Qmin result max))))).

(** [tenacity.wait_exponential(multiplier=1, max=MAX_WAIT)], with
    [exp_base=2] and [min=0], in exact arithmetic. *)
Definition tenacity_wait_exponential (multiplier max : option Q)
  : @wait_base RandomState :=
  let multiplier := or_default multiplier 1%Q in
  let max := or_default max MAX_WAIT in
  fun retry_state =>
    let exp := Qpower 2 (attempt_number retry_state - 1) in
    let result := (multiplier * exp)%Q in
    ret (Finite (Qred (Qmax (Qmax 0 0) (Qmin result max)))).

(** [tenacity.wait_fixed(wait)] *)
Definition wait_fixed (wait : Q) : @wait_base RandomState :=
  fun _ => ret (Finite wait).

(** The module over this world. *)
Definition py_wait_from_header :=
  wait_from_header tenacity_wait_exponential_jitter.
Definition py_wait_context_aware :=
  wait_context_aware tenacity_wait_exponential_jitter
    tenacity_wait_exponential.
Definition py_retry_http_errors :=
  retry_http_errors tenacity_wait_exponential_jitter
    tenacity_wait_exponential.

(** A failed attempt: [httpx.HTTPStatusError] for a response with the
    given status and [Retry-After] value. *)
Definition status_error (code : Z) (retry_after : string) : exception :=
  mkException HTTPStatusError
    (mkResponse code [("Retry-After", retry_after)]).

(** A failed attempt with an exception that carries no response (the
    field is filled with an empty one). *)
Definition plain_error (c : exc_class) : exception :=
  mkException c (mkResponse 0 []).

Definition failed (e : exception) (attempt : Z) : RetryCallState :=
  mkRetryCallState (Some (Raised e)) attempt.

(** A user's class that derives from [httpx.HTTPStatusError] and from
    [httpx.ConnectError]. *)
Definition StatusAndConnectError : exc_class :=
  OtherClass "StatusAndConnectError" [HTTPStatusError; ConnectError].

(** A 429 response with a [Retry-After] of "5" and a second hint that
    [float()] rejects. *)
Definition two_hints : exception :=
  mkException HTTPStatusError
    (mkResponse 429 [("Retry-After", "5"); ("X-Backoff", "soon")]).


(** [retry_http_errors(retry_network_errors=False,
    network_errors=httpx.TransportError)] *)
Definition transport_errors_off : @retry_http_errors_args RandomState :=
  mkArgs None None (Some false) None None None None None None None
         (Some (Class TransportError)) None None None None.

(** [retry_http_errors(retry_network_errors=False)] *)
Definition network_errors_off : @retry_http_errors_args RandomState :=
  mkArgs None None (Some false) None None None None None None None None
         None None None None.

(** [retry_http_errors] with the four categories switched off. *)
Definition all_off : @retry_http_errors_args RandomState :=
  mkArgs None (Some false) (Some false) (Some false) (Some false) None None
         None None None None None None None None.

(** ** Concrete runs *)

Lemma failed_singly_derived (e : exception) (attempt : Z) :
  single_inheritance (exc_type e) = true ->
  singly_derived (failed e attempt).
Proof. intros Hsingle e' [= <-]. exact Hsingle. Qed.

(** C3 fails on the code: the header is "5", yet the call raises, for
    its fallback, a header-driven strategy on a second header that holds
    "soon", is evaluated first and raises [ValueError]. *)
Lemma raising_fallback_counterexample :
  let retry_state := failed two_hints 1 in
  let fallback := py_wait_from_header "X-Backoff" (Some (wait_fixed 3)) in
  issubclass (exc_type two_hints) HTTPStatusError = true
  /\ Headers_getitem (headers (response two_hints)) "Retry-After"
     = Some "5"
  /\ fallback retry_state [] = (Raise ValueError, [])
  /\ py_wait_from_header "Retry-After" (Some fallback) retry_state []
     = (Raise ValueError, []).
Proof. cbv zeta. repeat split; reflexivity. Qed.

(** C6 fails on the code: a 429 failure of a class that derives from
    [HTTPStatusError] and from [ConnectError] is rate limited and, in
    the default configuration, a network error as well. *)
Lemma multiple_inheritance_counterexample :
  let retry_state :=
    failed (mkException StatusAndConnectError (mkResponse 429 [])) 1 in
  status_failure retry_state 429
  /\ retry_if_rate_limited retry_state = true
  /\ retry_if_network_error None retry_state = true.
Proof.
  cbv zeta. split; [ | split; reflexivity].
  exists (mkException StatusAndConnectError (mkResponse 429 [])).
  repeat split.
Qed.

(** With the header at "not-a-number" and a fixed fallback of 3 seconds
    the call raises [ValueError]. *)
Lemma unparsable_header_raises_run :
  py_wait_from_header "Retry-After" (Some (wait_fixed 3))
    (failed (status_error 429 "not-a-number") 1) []
  = (Raise ValueError, []).
Proof.
  exact (proj1 (unparsable_header_raises tenacity_wait_exponential_jitter
                  "Retry-After" (Some (wait_fixed 3))
                  (failed (status_error 429 "not-a-number") 1)
                  (status_error 429 "not-a-number") "not-a-number"
                  [] [] (Finite 3)
                  eq_refl eq_refl eq_refl eq_refl eq_refl)).
Defined.

(** C1 fails on the code: a 429 response whose [Retry-After] is
    "not-a-number" makes the call raise, where the fallback alone returns
    3.0. *)
Lemma unparsable_header_counterexample :
  let retry_state := failed (status_error 429 "not-a-number") 1 in
  py_wait_from_header "Retry-After" (Some (wait_fixed 3)) retry_state []
  = (Raise ValueError, [])
  /\ wait_fixed 3 retry_state [] = (Ret (Finite 3), [])
  /\ py_wait_from_header "Retry-After" (Some (wait_fixed 3)) retry_state []
     <> wait_fixed 3 retry_state [].
Proof.
  cbv zeta. split; [reflexivity | split; [reflexivity | ]].
  intros H. vm_compute in H. discriminate H.
Qed.

(** C2 fails on the code: a [Retry-After] of "-5" is returned as -5.0,
    by the header-driven strategy and by the dispatcher in its default
    configuration. *)
Lemma negative_header_counterexample :
  let retry_state := failed (status_error 429 "-5") 1 in
  py_wait_from_header "Retry-After" (Some (wait_fixed 3)) retry_state []
  = (Ret (Finite (-5)), [])
  /\ py_wait_context_aware None None None None None None None retry_state []
     = (Ret (Finite (-5)), [])
  /\ float_nonneg (Finite (-5)) = false.
Proof. cbv zeta. repeat split; reflexivity. Qed.

(** With the header at "5" the call returns 5.0; the fallback has been
    evaluated and has taken one number from the generator. *)
Lemma wait_from_header_value_run :
  py_wait_from_header "Retry-After" None (failed (status_error 429 "5") 1)
    [1 # 2]%Q
  = (Ret (Finite 5), []).
Proof.
  exact (proj1 (wait_from_header_value tenacity_wait_exponential_jitter
                  "Retry-After" None (failed (status_error 429 "5") 1)
                  (status_error 429 "5") eq_refl)
           eq_refl eq_refl [1 # 2]%Q (Finite (3 # 2)) [] eq_refl).
Defined.

(** With network errors switched off a connection failure is refused. *)
Lemma disabled_category_run :
  retry (py_retry_http_errors network_errors_off)
    (failed (plain_error ConnectError) 1)
  = false.
Proof.
  exact (proj1 (proj2 (proj2 (disabled_category
                                tenacity_wait_exponential_jitter
                                tenacity_wait_exponential
                                network_errors_off
                                (failed (plain_error ConnectError) 1)
                                eq_refl)
                         eq_refl eq_refl eq_refl
                         (failed_singly_derived
                            (plain_error ConnectError) 1 eq_refl)))
           eq_refl eq_refl).
Defined.

(** C7 fails on the code: with network errors switched off and every
    transport error configured as a network error, a read timeout is a
    failure of the switched-off category, and the policy retries it, for
    the network-timeout classifier is enabled and matches. *)
Lemma disabled_category_counterexample :
  let retry_state := failed (plain_error ReadTimeout) 1 in
  retry_network_errors transport_errors_off = Some false
  /\ retry_if_network_error (network_errors transport_errors_off)
       retry_state = true
  /\ retry (py_retry_http_errors transport_errors_off) retry_state = true.
Proof. cbv zeta. repeat split; reflexivity. Qed.

(** C8 fails on the code: in its default configuration the dispatcher
    gives a server error a jittered wait, and two calls in a row on the
    same retry state return 1.25 and 1.75 when the generator yields 0.25
    and 0.75. *)
Lemma jitter_counterexample :
  let retry_state := failed (status_error 500 "5") 1 in
  let dispatch :=
    py_wait_context_aware None None None None None None None retry_state in
  dispatch [1 # 4; 3 # 4]%Q = (Ret (Finite (5 # 4)), [3 # 4]%Q)
  /\ dispatch [3 # 4]%Q = (Ret (Finite (7 # 4)), [])
  /\ fst (dispatch (snd (dispatch [1 # 4; 3 # 4]%Q)))
     <> fst (dispatch [1 # 4; 3 # 4]%Q).
Proof.
  cbv zeta. split; [reflexivity | split; [reflexivity | ]].
  intros H. vm_compute in H. discriminate H.
Qed.

(** With every category switched off a server error is refused. *)
Lemma nothing_enabled_run :
  retry (py_retry_http_errors all_off) (failed (status_error 503 "5") 1)
  = false.
Proof.
  exact (proj2 (proj2 (nothing_enabled tenacity_wait_exponential_jitter
                         tenacity_wait_exponential all_off
                         (failed (status_error 503 "5") 1)
                         eq_refl eq_refl eq_refl eq_refl eq_refl))).
Defined.

(** Before the first outcome the dispatcher returns zero and leaves the
    generator alone. *)
Lemma absent_outcome_run :
  py_wait_context_aware None None None None None None None
    (mkRetryCallState None 1) [1 # 2]%Q
  = (Ret (Finite 0), [1 # 2]%Q).
Proof.
  exact (proj1 (proj2 (proj2 (proj2 (proj2
           (absent_outcome tenacity_wait_exponential_jitter
              tenacity_wait_exponential (mkRetryCallState None 1)
              eq_refl)))))
           None None None None None None None [1 # 2]%Q).
Defined.

(** [retry_http_errors()] *)
Definition default_args : @retry_http_errors_args RandomState :=
  mkArgs None None None None None None None None None None None None
         None None None.

(** [retry_http_errors(server_error_codes=[501])] *)
Definition codes_501 : @retry_http_errors_args RandomState :=
  mkArgs None None None None None None None None None
         (Some (CodeSeq [501])) None None None None None.

(** An attempt that returned is not retried by the default policy. *)
Lemma success_never_retried_run :
  retry (py_retry_http_errors default_args)
    (mkRetryCallState (Some Returned) 1)
  = false.
Proof.
  exact (proj1 (proj2 (proj2 (proj2 (proj2
           (success_never_retried tenacity_wait_exponential_jitter
              tenacity_wait_exponential
              (mkRetryCallState (Some Returned) 1) eq_refl)))))
           default_args eq_refl).
Defined.

(** A [Retry-After] in HTTP-date form makes the default rate-limit wait
    raise. *)
Lemma retry_after_date_raises_run :
  wait_retry_after_header tenacity_wait_exponential_jitter None
    (Some (wait_fixed 3))
    (failed (status_error 429 "Wed, 21 Oct 2015 07:28:00 GMT") 1) []
  = (Raise ValueError, []).
Proof.
  exact (retry_after_date_raises tenacity_wait_exponential_jitter None
           (Some (wait_fixed 3))
           (failed (status_error 429 "Wed, 21 Oct 2015 07:28:00 GMT") 1)
           (status_error 429 "Wed, 21 Oct 2015 07:28:00 GMT")
           "W" "ed, 21 Oct 2015 07:28:00 GMT" [] [] (Finite 3)
           eq_refl eq_refl eq_refl eq_refl eq_refl).
Defined.

(** With 501 configured as a server error, a 501 failure is retried and
    its wait is zero. *)
Lemma custom_code_retried_without_wait_run :
  wait (py_retry_http_errors codes_501) (failed (status_error 501 "5") 1)
    [1 # 2]%Q
  = (Ret (Finite 0), [1 # 2]%Q)
  /\ retry (py_retry_http_errors codes_501)
       (failed (status_error 501 "5") 1)
     = true.
Proof.
  assert (Hc : ~ In 501 [500; 502; 504; 503; 429]).
  { simpl. intros [H | [H | [H | [H | [H | []]]]]]; discriminate H. }
  destruct (custom_code_retried_without_wait
              tenacity_wait_exponential_jitter tenacity_wait_exponential
              codes_501 (failed (status_error 501 "5") 1)
              (status_error 501 "5") [1 # 2]%Q
              eq_refl eq_refl eq_refl eq_refl Hc) as [Hw Hr].
  split; [exact Hw | ].
  exact (Hr [501] eq_refl eq_refl eq_refl (or_introl eq_refl)).
Defined.

(** A connection failure at the second attempt waits 2 seconds under
    the default policy. *)
Lemma policy_wait_by_category_run :
  wait (py_retry_http_errors default_args)
    (failed (plain_error ConnectError) 2) []
  = (Ret (Finite 2), []).
Proof.
  exact (proj1 (proj2 (policy_wait_by_category
                         tenacity_wait_exponential_jitter
                         tenacity_wait_exponential default_args
                         (failed (plain_error ConnectError) 2) []
                         eq_refl
                         (failed_singly_derived
                            (plain_error ConnectError) 2 eq_refl)))
           eq_refl).
Defined.

(** The default policy stops at the third attempt and not at the
    second. *)
Lemma stop_from_max_attempt_run :
  stop (py_retry_http_errors default_args)
    (failed (plain_error ConnectError) 3) = true
  /\ stop (py_retry_http_errors default_args)
       (failed (plain_error ConnectError) 2) = false.
Proof.
  split; [ | reflexivity].
  apply (proj1 (stop_from_max_attempt tenacity_wait_exponential_jitter
                  tenacity_wait_exponential default_args eq_refl)).
  vm_compute. discriminate.
Defined.

(** Under the default policy a 429 with [Retry-After: 7.5] is retried
    after 7.5 seconds. *)
Lemma policy_honours_retry_after_run :
  wait (py_retry_http_errors default_args)
    (failed (status_error 429 "7.5") 1) [1 # 2]%Q
  = (Ret (Finite (15 # 2)), [])
  /\ retry (py_retry_http_errors default_args)
       (failed (status_error 429 "7.5") 1)
     = true.
Proof.
  destruct (policy_honours_retry_after tenacity_wait_exponential_jitter
              tenacity_wait_exponential default_args
              (failed (status_error 429 "7.5") 1) (status_error 429 "7.5")
              "7.5" (Finite (15 # 2)) (Finite (3 # 2)) [1 # 2]%Q []
              eq_refl eq_refl eq_refl eq_refl eq_refl eq_refl eq_refl
              eq_refl eq_refl) as [Hw Hr].
  split; [exact Hw | exact (Hr eq_refl eq_refl)].
Defined.

(** A read timeout belongs to one default category only. *)
Lemma default_classifiers_disjoint_run :
  (List.length
     (filter (fun r : retry_base => r (failed (plain_error ReadTimeout) 1))
        [retry_if_server_error None; retry_if_network_error None;
         retry_if_network_timeout None; retry_if_rate_limited]) <= 1)%nat.
Proof.
  exact (default_classifiers_disjoint (failed (plain_error ReadTimeout) 1)
           (failed_singly_derived (plain_error ReadTimeout) 1 eq_refl)).
Defined.
